(** * telegram_notify: formatting and dispatch of CI notifications

    A shallow embedding of [.github/scripts/telegram_notify.py] and the
    properties its specification states about it.

    Conventions of the embedding.
    - A Python [str] is a [string] holding the UTF-8 bytes of its
      characters, one after the other; a lone surrogate, which a [str] can
      hold (from a [\uXXXX] escape of JSON, or from an undecodable byte of
      the environment), is held as the three bytes the same scheme gives
      it. A character is a byte that is no continuation byte, with the
      continuation bytes that follow it: slicing and iterating go by
      characters, and encoding to UTF-8 fails on a surrogate.
    - [os.environ] is a [gmap string string]; [os.getenv] is the lookup.
    - A value decoded by [json.loads] is a [pyval]; the dynamically typed
      operations the script applies to it ([.get], slicing, [.replace],
      truth testing) are total functions into [res], which either returns
      or raises a Python exception.
    - Functions of the Python runtime whose full behaviour is not the
      script's ([json.loads], [str()] of a non-string object, [int()] of a
      string) are fields of a [runtime] record; [cpython] further down is an
      executable instance, used to run the model on concrete inputs.
    - The network is a function [urlopen] from the request to what reading
      the response gives; every call is recorded in the process state. *)

From Stdlib Require Import ZArith String Ascii List Bool Lia.
From stdpp Require Import base option list strings gmap.

Local Open Scope Z_scope.

(** ** Strings *)

Definition dquote : string := String "034"%char EmptyString.
Definition newline : string := String "010"%char EmptyString.

(** A byte that continues the character begun before it. *)
Definition is_continuation (c : ascii) : bool :=
  (128 <=? N_of_ascii c)%N && (N_of_ascii c <? 192)%N.

(** [s[:n]] on a [str]: its first [n] characters, each with its
    continuation bytes. *)
Fixpoint str_take (n : nat) (s : string) : string :=
  match s with
  | EmptyString => EmptyString
  | String c s' =>
      if is_continuation c then String c (str_take n s')
      else
        match n with
        | O => EmptyString
        | S n' => String c (str_take n' s')
        end
  end.

(** The characters of a [str], in order. *)
Fixpoint str_chars (s : string) : list string :=
  match s with
  | EmptyString => []
  | String c s' =>
      let rest := str_chars s' in
      match s' with
      | String d _ =>
          if is_continuation d then
            match rest with
            | x :: l => String c x :: l
            | [] => [String c EmptyString]
            end
          else String c EmptyString :: rest
      | EmptyString => [String c EmptyString]
      end
  end.

(** [s.replace(old, new)] for a pattern [old] of one character. *)
Fixpoint replace_char (old : ascii) (new : string) (s : string) : string :=
  match s with
  | EmptyString => EmptyString
  | String c s' =>
      if Ascii.eqb c old then new +:+ replace_char old new s'
      else String c (replace_char old new s')
  end.

(** [sep.join(l)]. *)
Fixpoint join (sep : string) (l : list string) : string :=
  match l with
  | [] => EmptyString
  | [x] => x
  | x :: l' => x +:+ sep +:+ join sep l'
  end.

(** [html.escape(s)] with its default [quote=True]: five replacements, the
    ampersand first. *)
Definition escape (s : string) : string :=
  let s := replace_char "&"%char "&amp;" s in
  let s := replace_char "<"%char "&lt;" s in
  let s := replace_char ">"%char "&gt;" s in
  let s := replace_char "034"%char "&quot;" s in
  let s := replace_char "'"%char "&#x27;" s in
  s.

(** ** Pull-request status *)

(** [get_pr_status(action, merged)]. *)
Definition get_pr_status (action : string) (merged : bool) : string :=
  if String.eqb action "closed" && merged then "merged"
  else if String.eqb action "synchronize" then "updated"
  else action.

(** ** The formatters of pull requests, issues and workflow runs *)

(** [format_pr_message]; [pr_num] is already a [str] in [main], so
    [str(pr_num)] is [pr_num]. *)
Definition format_pr_message
    (repo actor pr_num pr_title pr_url base_ref head_ref status : string)
    : string :=
  let repo_esc := escape repo in
  let actor_esc := escape actor in
  let pr_num_esc := escape pr_num in
  let pr_title_esc := escape pr_title in
  let base_ref_esc := escape base_ref in
  let head_ref_esc := escape head_ref in
  let status_esc := escape status in
  "<b>PR " +:+ status_esc +:+ ":</b> <a href=" +:+ dquote +:+ pr_url
    +:+ dquote +:+ ">#" +:+ pr_num_esc +:+ "</a> — " +:+ pr_title_esc
    +:+ newline +:+ "Repo: " +:+ repo_esc
    +:+ newline +:+ "By: " +:+ actor_esc
    +:+ newline +:+ head_ref_esc +:+ " → " +:+ base_ref_esc.

(** [format_issue_message]. *)
Definition format_issue_message
    (repo actor issue_num issue_title issue_url status : string) : string :=
  let repo_esc := escape repo in
  let actor_esc := escape actor in
  let issue_num_esc := escape issue_num in
  let issue_title_esc := escape issue_title in
  let status_esc := escape status in
  "<b>Issue " +:+ status_esc +:+ ":</b> <a href=" +:+ dquote +:+ issue_url
    +:+ dquote +:+ ">#" +:+ issue_num_esc +:+ "</a> — " +:+ issue_title_esc
    +:+ newline +:+ "Repo: " +:+ repo_esc
    +:+ newline +:+ "By: " +:+ actor_esc.

(** [format_workflow_message]. *)
Definition format_workflow_message
    (repo actor workflow_name conclusion event_type branch run_url : string)
    : string :=
  let repo_esc := escape repo in
  let actor_esc := escape actor in
  let workflow_name_esc := escape workflow_name in
  let conclusion_esc := escape conclusion in
  let event_type_esc := escape event_type in
  let branch_esc := escape branch in
  "<b>Workflow:</b> " +:+ workflow_name_esc
    +:+ newline +:+ "Repo: " +:+ repo_esc
    +:+ newline +:+ "Branch: " +:+ branch_esc
    +:+ newline +:+ "By: " +:+ actor_esc
    +:+ newline +:+ "Event: " +:+ event_type_esc
    +:+ newline +:+ "Status: <b>" +:+ conclusion_esc +:+ "</b>"
    +:+ newline +:+ "<a href=" +:+ dquote +:+ run_url +:+ dquote
    +:+ ">Open run</a>".

(** ** Values decoded from JSON *)

(** A Python [float] read from a decimal literal, kept as the literal's sign,
    digits and decimal exponent (the value is the binary64 nearest to
    [digits * 10 ^ exp10]), or one of the three constants [json.loads] also
    accepts. *)
Inductive pyfloat : Type :=
| FDec (neg : bool) (digits : N) (exp10 : Z)
| FInf (neg : bool)
| FNaN.

(** What [json.loads] can return. A [dict] is kept as the list of its items
    in insertion order, keys distinct. *)
#[warnings="-register-all"]
Inductive pyval : Type :=
| PNone
| PBool (b : bool)
| PInt (n : Z)
| PFloat (f : pyfloat)
| PStr (s : string)
| PList (l : list pyval)
| PDict (d : list (string * pyval)).

(** [x != 0.0]: a decimal rounds to zero exactly when it is at most
    [2 ^ -1075], half of the least positive binary64. *)
Definition float_nonzero (f : pyfloat) : bool :=
  match f with
  | FDec _ m e =>
      if 0 <=? e then negb (N.eqb m 0)
      else 10 ^ (- e) <? Z.of_N m * 2 ^ 1075
  | FInf _ => true
  | FNaN => true
  end.

(** [bool(v)], as used by [if v:] and by [or]. *)
Definition truthy (v : pyval) : bool :=
  match v with
  | PNone => false
  | PBool b => b
  | PInt n => negb (n =? 0)
  | PFloat f => float_nonzero f
  | PStr EmptyString => false
  | PStr (String _ _) => true
  | PList [] => false
  | PList (_ :: _) => true
  | PDict [] => false
  | PDict (_ :: _) => true
  end.

(** [type(v).__name__]. *)
Definition type_name (v : pyval) : string :=
  match v with
  | PNone => "NoneType"
  | PBool _ => "bool"
  | PInt _ => "int"
  | PFloat _ => "float"
  | PStr _ => "str"
  | PList _ => "list"
  | PDict _ => "dict"
  end.

(** ** Exceptions *)

(** The classes the script names in its [except] clauses, and the others it
    meets ([UnicodeEncodeError] derives from [ValueError], and from none of
    the classes an [except] clause of the script names). [OtherException]
    stands for any further subclass of [Exception] that derives from none
    of the named ones. *)
Inductive exn_class : Type :=
| JSONDecodeError
| KeyError
| TypeError
| AttributeError
| ValueError
| UnicodeEncodeError
| OtherException (name : string).

Record exn : Type := Exn { exn_class_of : exn_class; exn_text : string }.

Inductive res (A : Type) : Type :=
| Ok (a : A)
| Raise (e : exn).
Arguments Ok {A} a.
Arguments Raise {A} e.

#[global] Instance res_ret : MRet res := fun A a => Ok a.
#[global] Instance res_bind : MBind res := fun A B f m =>
  match m with
  | Ok a => f a
  | Raise e => Raise e
  end.

(** ** The Python runtime the script calls into *)

Record runtime : Type := Runtime {
  (** [json.loads(s)] on a [str]. *)
  json_loads : string -> res pyval;
  (** [str(v)] of a value that is not a [str], as an f-string applies it. *)
  py_str : pyval -> string;
  (** [int(s)] on a [str]; [None] is its [ValueError]. *)
  py_int : string -> option Z
}.

(** ** Dynamically typed operations *)

Definition no_attribute (v : pyval) (attr : string) : exn :=
  Exn AttributeError
    ("'" +:+ type_name v +:+ "' object has no attribute '" +:+ attr +:+ "'").

Fixpoint dict_get (key : string) (d : list (string * pyval)) : option pyval :=
  match d with
  | [] => None
  | (k, v) :: d' => if String.eqb k key then Some v else dict_get key d'
  end.

(** [d[key] = v]: the value of an existing key is replaced in place, a new
    key goes last. *)
Fixpoint dict_set (key : string) (v : pyval) (d : list (string * pyval))
    : list (string * pyval) :=
  match d with
  | [] => [(key, v)]
  | (k, w) :: d' =>
      if String.eqb k key then (k, v) :: d' else (k, w) :: dict_set key v d'
  end.

(** [v.get(key, default)]; only a [dict] has the method. *)
Definition py_get (v : pyval) (key : string) (default : pyval) : res pyval :=
  match v with
  | PDict d => Ok (from_option id default (dict_get key d))
  | _ => Raise (no_attribute v "get")
  end.

(** [v[:n]]. A [dict] rejects the slice as a key: with [TypeError]
    (unhashable) up to Python 3.11, with [KeyError] since 3.12. *)
Definition py_slice (n : nat) (v : pyval) : res pyval :=
  match v with
  | PStr s => Ok (PStr (str_take n s))
  | PList l => Ok (PList (take n l))
  | PDict _ => Raise (Exn TypeError "unhashable type: 'slice'")
  | _ => Raise (Exn TypeError
                  ("'" +:+ type_name v +:+ "' object is not subscriptable"))
  end.

(** The items a [for] loop over [v] visits. *)
Definition py_iter (v : pyval) : res (list pyval) :=
  match v with
  | PList l => Ok l
  | PStr s => Ok (map PStr (str_chars s))
  | PDict d => Ok (map (fun kv => PStr (fst kv)) d)
  | _ => Raise (Exn TypeError
                  ("'" +:+ type_name v +:+ "' object is not iterable"))
  end.

(** [v.replace(old, new)]; only a [str] has the method. *)
Definition py_replace (v : pyval) (old : ascii) (new : string) : res string :=
  match v with
  | PStr s => Ok (replace_char old new s)
  | _ => Raise (no_attribute v "replace")
  end.

(** [escape(v)]: its first statement is [v.replace("&", "&amp;")]. *)
Definition py_escape (v : pyval) : res string :=
  match v with
  | PStr s => Ok (escape s)
  | _ => Raise (no_attribute v "replace")
  end.

(** A replacement field of an f-string. *)
Definition fmt (rt : runtime) (v : pyval) : string :=
  match v with
  | PStr s => s
  | _ => py_str rt v
  end.

(** ** The push formatter *)

Definition error_parsing_commits : string := "— error parsing commits —".
Definition no_commit_messages : string := "— no commit messages —".

(** The body of the loop over the commits, up to the line it appends. *)
Definition commit_line (rt : runtime) (repo : string) (commit : pyval)
    : res string :=
  id1 ← py_get commit "id" (PStr EmptyString);
  sha7 ← py_slice 7 id1;
  full_sha ← py_get commit "id" (PStr EmptyString);
  m ← py_get commit "message" (PStr EmptyString);
  message ← py_replace m "010"%char " ";
  a1 ← py_get commit "author" (PDict []);
  username ← py_get a1 "username" PNone;
  author ←
    (if truthy username then Ok username
     else
       a2 ← py_get commit "author" (PDict []);
       name ← py_get a2 "name" PNone;
       if truthy name then Ok name else Ok (PStr "unknown"));
  msg_esc ← py_escape (PStr message);
  author_esc ← py_escape author;
  let url := "https://github.com/" +:+ repo +:+ "/commit/" +:+ fmt rt full_sha in
  Ok ("- <a href=" +:+ dquote +:+ url +:+ dquote +:+ ">" +:+ fmt rt sha7
        +:+ "</a> — " +:+ msg_esc +:+ " (by " +:+ author_esc +:+ ")").

(** The loop: each line is appended to [commits_list]; the first exception
    leaves the loop. *)
Fixpoint render_commits (rt : runtime) (repo : string) (commits : list pyval)
    (commits_list : list string) : res (list string) :=
  match commits with
  | [] => Ok commits_list
  | commit :: rest =>
      line ← commit_line rt repo commit;
      render_commits rt repo rest (commits_list ++ [line])
  end.

(** [except (json.JSONDecodeError, KeyError, TypeError)]. *)
Definition push_handles (e : exn) : bool :=
  match exn_class_of e with
  | JSONDecodeError | KeyError | TypeError => true
  | _ => false
  end.

(** [if commits_data:] on what [os.getenv] returned. *)
Definition str_truthy (v : option string) : bool :=
  match v with
  | Some (String _ _) => true
  | _ => false
  end.

(** The body of the [try]: decode, slice, loop. *)
Definition try_commits (rt : runtime) (repo data : string)
    : res (list string) :=
  commits ← json_loads rt data;
  first10 ← py_slice 10 commits;
  items ← py_iter first10;
  render_commits rt repo items [].

(** The value of [commits_list] when it is joined: the [if commits_data:]
    block with its [try], then the substitution for an empty list. *)
Definition commits_list (rt : runtime) (repo : string)
    (commits_data : option string) : res (list string) :=
  lines ←
    (if str_truthy commits_data then
       match try_commits rt repo (default EmptyString commits_data) with
       | Ok lines => Ok lines
       | Raise e =>
           if push_handles e then Ok [error_parsing_commits] else Raise e
       end
     else Ok []);
  match lines with
  | [] => Ok [no_commit_messages]
  | _ :: _ => Ok lines
  end.

(** [format_push_message]. *)
Definition format_push_message (rt : runtime) (repo actor branch : string)
    (commits_data : option string) : res string :=
  let repo_esc := escape repo in
  let actor_esc := escape actor in
  let branch_esc := escape branch in
  lines ← commits_list rt repo commits_data;
  let commits_text := join newline lines in
  Ok (actor_esc +:+ " just pushed to branch " +:+ branch_esc +:+ " of "
        +:+ repo_esc +:+ ":" +:+ newline +:+ commits_text).

(** ** The process: environment, output streams, network, exit *)

(** The request handed to [urlopen]. [req_data] is the [dict] [data], items
    in insertion order; the body of the request is its form encoding
    ([urlencode] below), which [send_telegram_message] computes before it
    builds the request. *)
Record request : Type := Request {
  req_url : string;
  req_data : list (string * pyval);
  req_method : string;
  req_headers : list (string * string)
}.

Record io_state : Type := IO {
  requests : list request;     (** the calls of [urlopen], oldest first *)
  stdout : list string;
  stderr : list string
}.

Definition io_init : io_state := IO [] [] [].

(** How a computation of the process ends: normally, by [sys.exit], or by
    an exception nothing catches. *)
Inductive status (A : Type) : Type :=
| Done (a : A)
| Exited (code : Z)
| Uncaught (e : exn).
Arguments Done {A} a.
Arguments Exited {A} code.
Arguments Uncaught {A} e.

Definition proc (A : Type) : Type := io_state -> status A * io_state.

#[global] Instance proc_ret : MRet proc := fun A a io => (Done a, io).
#[global] Instance proc_bind : MBind proc := fun A B f m io =>
  match m io with
  | (Done a, io') => f a io'
  | (Exited c, io') => (Exited c, io')
  | (Uncaught e, io') => (Uncaught e, io')
  end.

Definition log_out (line : string) (io : io_state) : io_state :=
  IO (requests io) (stdout io ++ [line]) (stderr io).

Definition log_err (line : string) (io : io_state) : io_state :=
  IO (requests io) (stdout io) (stderr io ++ [line]).

Definition log_request (req : request) (io : io_state) : io_state :=
  IO (requests io ++ [req]) (stdout io) (stderr io).

(** [print(line)] and [print(line, file=sys.stderr)]. *)
Definition print_out (line : string) : proc unit := fun io =>
  (Done tt, log_out line io).

Definition print_err (line : string) : proc unit := fun io =>
  (Done tt, log_err line io).

Definition sys_exit {A : Type} (code : Z) : proc A := fun io =>
  (Exited code, io).

(** A result of the exception layer, inside code with no handler. *)
Definition propagate {A : Type} (r : res A) : proc A := fun io =>
  match r with
  | Ok a => (Done a, io)
  | Raise e => (Uncaught e, io)
  end.

(** [urlopen(req)] and reading and decoding the response: the call is
    recorded, the outcome is the network's. *)
Definition http_call (urlopen : request -> res string) (req : request)
    : proc (res string) := fun io =>
  (Done (urlopen req), log_request req io).

(** The exit code of the interpreter: 0 after a normal end, the argument of
    [sys.exit], 1 after an uncaught exception (whose traceback is not made
    part of [stderr] here). *)
Definition exit_code {A : Type} (s : status A) : Z :=
  match s with
  | Done _ => 0
  | Exited c => c
  | Uncaught _ => 1
  end.

(** ** Reading the environment *)

Definition missing_diagnostic (name : string) : string :=
  "Error: Required environment variable " +:+ name +:+ " is not set".

(** [get_env_var(name, required)]. *)
Definition get_env_var (env : gmap string string) (name : string)
    (required : bool) : proc (option string) :=
  let value := env !! name in
  if required && negb (str_truthy value) then
    _ ← print_err (missing_diagnostic name);
    sys_exit 1
  else mret value.

(** [get_env_var(name)] where the script goes on to use the value as a
    [str]: there the value is a non-empty [str], and [default] only gives it
    its type. *)
Definition get_required (env : gmap string string) (name : string)
    : proc string :=
  value ← get_env_var env name true;
  mret (default EmptyString value).

(** [v == lit] on what [os.getenv] returned. *)
Definition opt_eqb (v : option string) (lit : string) : bool :=
  match v with
  | Some s => String.eqb s lit
  | None => false
  end.

(** [v or lit] on what [os.getenv] returned. *)
Definition or_else (v : option string) (lit : string) : string :=
  match v with
  | Some (String c s) => String c s
  | _ => lit
  end.

(** ** The notifier *)

(** The [try] block of [send_telegram_message] after the response is read:
    what to report. *)
Inductive verdict : Type :=
| Sent
| ApiError (description : pyval).

Definition sent_line : string := "✅ Telegram message sent successfully".

Definition api_error_line (description : string) : string :=
  "❌ Telegram API error: " +:+ description.

Definition send_failed_line (text : string) : string :=
  "❌ Failed to send Telegram message: " +:+ text.

(** *** The form encoding *)

(** The text holds a surrogate: the byte 237 followed by a byte from 160
    on. *)
Fixpoint has_surrogate (s : string) : bool :=
  match s with
  | EmptyString => false
  | String c s' =>
      match s' with
      | String d _ =>
          ((N_of_ascii c =? 237)%N && (160 <=? N_of_ascii d)%N)
          || has_surrogate s'
      | EmptyString => false
      end
  end.

(** What [s.encode('utf-8')] raises on a surrogate (the text of the
    exception is kept without the character and its position). *)
Definition surrogates_not_allowed : exn :=
  Exn UnicodeEncodeError
    "'utf-8' codec can't encode character: surrogates not allowed".

(** The bytes [quote] leaves as they are: letters, digits and [_.-~]. *)
Definition always_safe (c : ascii) : bool :=
  let n := N_of_ascii c in
  ((65 <=? n)%N && (n <=? 90)%N) || ((97 <=? n)%N && (n <=? 122)%N)
  || ((48 <=? n)%N && (n <=? 57)%N)
  || (n =? 95)%N || (n =? 46)%N || (n =? 45)%N || (n =? 126)%N.

Definition hex_upper (n : N) : ascii :=
  if (n <? 10)%N then ascii_of_N (48 + n) else ascii_of_N (55 + n).

(** A byte as [quote_plus] writes it: a space as [+], a safe byte as it is,
    any other as [%XX]. *)
Definition quote_byte (c : ascii) : string :=
  if Ascii.eqb c " " then "+"
  else if always_safe c then String c EmptyString
  else
    String "%"
      (String (hex_upper (N_of_ascii c / 16))
         (String (hex_upper (N_of_ascii c mod 16)) EmptyString)).

Fixpoint quote_bytes (s : string) : string :=
  match s with
  | EmptyString => EmptyString
  | String c s' => quote_byte c +:+ quote_bytes s'
  end.

(** [urllib.parse.quote_plus(s)] on a [str]: the text is encoded to UTF-8
    (strict), then quoted byte by byte. *)
Definition quote_plus (s : string) : res string :=
  if has_surrogate s then Raise surrogates_not_allowed
  else Ok (quote_bytes s).

(** The [key=value] items of [urllib.parse.urlencode(data)], in the order of
    the [dict]; a value that is not a [str] goes through [str()]. *)
Fixpoint urlencode_items (rt : runtime) (data : list (string * pyval))
    : res (list string) :=
  match data with
  | [] => Ok []
  | (k, v) :: data' =>
      key ← quote_plus k;
      value ← quote_plus (fmt rt v);
      items ← urlencode_items rt data';
      Ok ((key +:+ "=" +:+ value) :: items)
  end.

(** [urllib.parse.urlencode(data).encode('utf-8')]. *)
Definition urlencode (rt : runtime) (data : list (string * pyval))
    : res string :=
  items ← urlencode_items rt data;
  Ok (join "&" items).

(** The first half of [send_telegram_message]: the URL, the [dict] [data]
    with the thread identifier when there is one, and the request. *)
Definition build_request (rt : runtime)
    (bot_token chat_id message : string) (thread_id : option string)
    : request :=
  let url := "https://api.telegram.org/bot" +:+ bot_token +:+ "/sendMessage" in
  let data :=
    [("chat_id", PStr chat_id); ("text", PStr message);
     ("parse_mode", PStr "HTML")] in
  let data :=
    if str_truthy thread_id then
      let t := default EmptyString thread_id in
      match py_int rt t with
      | Some n => dict_set "message_thread_id" (PInt n) data
      | None => dict_set "message_thread_id" (PStr t) data
      end
    else data in
  Request url data "POST"
    [("Content-Type", "application/x-www-form-urlencoded")].

(** [send_telegram_message(bot_token, chat_id, message, thread_id)]. *)
Definition send_telegram_message (rt : runtime)
    (urlopen : request -> res string)
    (bot_token chat_id message : string) (thread_id : option string)
    : proc bool :=
  let req := build_request rt bot_token chat_id message thread_id in
  data_encoded ← propagate (urlencode rt (req_data req));
  response ← http_call urlopen req;
  match
    body ← response;
    result ← json_loads rt body;
    ok ← py_get result "ok" PNone;
    if truthy ok then Ok Sent
    else
      description ← py_get result "description" (PStr "Unknown error");
      Ok (ApiError description)
  with
  | Ok Sent =>
      _ ← print_out sent_line;
      mret true
  | Ok (ApiError description) =>
      _ ← print_err (api_error_line (fmt rt description));
      mret false
  | Raise e =>
      _ ← print_err (send_failed_line (exn_text e));
      mret false
  end.

(** ** The four branches of [main] and [main] *)

(** The block under [# Pull Request event]. *)
Definition pull_request_event (env : gmap string string) (repo actor : string)
    : proc string :=
  pr_num ← get_required env "PR_NUMBER";
  pr_title ← get_required env "PR_TITLE";
  pr_url ← get_required env "PR_URL";
  base_ref ← get_required env "BASE_REF";
  head_ref ← get_required env "HEAD_REF";
  action ← get_required env "PR_ACTION";
  pr_merged ← get_env_var env "PR_MERGED" false;
  let merged := opt_eqb pr_merged "true" in
  let status := get_pr_status action merged in
  mret (format_pr_message repo actor pr_num pr_title pr_url base_ref head_ref
          status).

(** The block under [# Issue event]. *)
Definition issue_event (env : gmap string string) (repo actor : string)
    : proc string :=
  issue_num ← get_required env "ISSUE_NUMBER";
  issue_title ← get_required env "ISSUE_TITLE";
  issue_url ← get_required env "ISSUE_URL";
  status ← get_required env "ISSUE_ACTION";
  mret (format_issue_message repo actor issue_num issue_title issue_url status).

(** The block under [# Push event]. *)
Definition push_event (rt : runtime) (env : gmap string string)
    (repo actor : string) : proc string :=
  branch ← get_required env "PUSH_BRANCH";
  commits_data ← get_env_var env "PUSH_COMMITS" false;
  propagate (format_push_message rt repo actor branch commits_data).

(** The block under [# Workflow run event]. *)
Definition workflow_run_event (env : gmap string string) (repo actor : string)
    : proc string :=
  workflow_name ← get_required env "WORKFLOW_NAME";
  conclusion ← get_required env "WORKFLOW_CONCLUSION";
  workflow_event ← get_env_var env "WORKFLOW_EVENT" false;
  let workflow_event := or_else workflow_event "unknown" in
  branch ← get_env_var env "WORKFLOW_BRANCH" false;
  let branch := or_else branch "unknown" in
  run_url ← get_env_var env "WORKFLOW_URL" false;
  let run_url := or_else run_url "#" in
  mret (format_workflow_message repo actor workflow_name conclusion
          workflow_event branch run_url).

Definition unknown_event_diagnostic : string :=
  "❌ Unknown event type or missing required environment variables".

(** [a == lit or get_env_var(name, required=False)], as a condition: the
    variable is read only when the comparison fails. *)
Definition hint_or_present (env : gmap string string)
    (event_type : option string) (lit name : string) : proc bool :=
  if opt_eqb event_type lit then mret true
  else
    value ← get_env_var env name false;
    mret (str_truthy value).

(** The [if]/[elif] chain of [main], from the read of [EVENT_TYPE] to the
    value of [message]. *)
Definition select_message (rt : runtime) (env : gmap string string)
    (repo actor : string) : proc string :=
  event_type ← get_env_var env "EVENT_TYPE" false;
  c1 ← hint_or_present env event_type "pull_request" "PR_NUMBER";
  if c1 : bool then pull_request_event env repo actor
  else
    c2 ← hint_or_present env event_type "issues" "ISSUE_NUMBER";
    if c2 : bool then issue_event env repo actor
    else
      c3 ← hint_or_present env event_type "push" "PUSH_BRANCH";
      if c3 : bool then push_event rt env repo actor
      else
        c4 ← hint_or_present env event_type "workflow_run" "WORKFLOW_NAME";
        if c4 : bool then workflow_run_event env repo actor
        else
          _ ← print_err unknown_event_diagnostic;
          sys_exit 1.

(** [main()]. *)
Definition main (rt : runtime) (urlopen : request -> res string)
    (env : gmap string string) : proc unit :=
  bot_token ← get_required env "TELEGRAM_BOT_TOKEN";
  chat_id ← get_required env "TELEGRAM_CHAT_ID";
  thread_id ← get_env_var env "TELEGRAM_THREAD_ID" false;
  repo ← get_required env "GITHUB_REPOSITORY";
  actor ← get_required env "GITHUB_ACTOR";
  message ← select_message rt env repo actor;
  success ← send_telegram_message rt urlopen bot_token chat_id message
              thread_id;
  if success : bool then mret tt else sys_exit 1.

(** One run of the script from a fresh process. *)
Definition run_main (rt : runtime) (urlopen : request -> res string)
    (env : gmap string string) : Z * io_state :=
  let '(s, io) := main rt urlopen env io_init in (exit_code s, io).

(** ** An executable runtime

    [cpython] runs the model on concrete inputs. Its decoder follows the
    scanner of [json.decoder]; it does not model the interpreter's limits
    (recursion depth, digits of an integer), and the text of its
    [JSONDecodeError] is a fixed one, without the position. *)

Module Json.

Definition is_ws (c : ascii) : bool :=
  Ascii.eqb c " " || Ascii.eqb c "009" || Ascii.eqb c "010"
  || Ascii.eqb c "013".

Fixpoint skip_ws (s : string) : string :=
  match s with
  | String c r => if is_ws c then skip_ws r else s
  | EmptyString => s
  end.

Definition is_digit (c : ascii) : bool :=
  (48 <=? N_of_ascii c)%N && (N_of_ascii c <=? 57)%N.

Definition digit_value (c : ascii) : N := (N_of_ascii c - 48)%N.

(** The longest prefix of decimal digits, and what follows it. *)
Fixpoint span_digits (s : string) : string * string :=
  match s with
  | String c r =>
      if is_digit c then
        let '(ds, rest) := span_digits r in (String c ds, rest)
      else (EmptyString, s)
  | EmptyString => (EmptyString, s)
  end.

Fixpoint digits_value (acc : N) (ds : string) : N :=
  match ds with
  | String c r => digits_value (acc * 10 + digit_value c)%N r
  | EmptyString => acc
  end.

Definition hex_value (c : ascii) : option N :=
  let n := N_of_ascii c in
  if is_digit c then Some (n - 48)%N
  else if (97 <=? n)%N && (n <=? 102)%N then Some (n - 87)%N
  else if (65 <=? n)%N && (n <=? 70)%N then Some (n - 55)%N
  else None.

Definition hex4 (a b c d : ascii) : option N :=
  va ← hex_value a; vb ← hex_value b; vc ← hex_value c; vd ← hex_value d;
  Some (((va * 16 + vb) * 16 + vc) * 16 + vd)%N.

Definition byte (n : N) : ascii := ascii_of_N n.

(** The UTF-8 bytes of a code point (a lone surrogate is encoded like any
    other three-byte code point). *)
Definition utf8 (cp : N) : string :=
  if (cp <? 128)%N then String (byte cp) EmptyString
  else if (cp <? 2048)%N then
    String (byte (192 + cp / 64)) (String (byte (128 + cp mod 64)) EmptyString)
  else if (cp <? 65536)%N then
    String (byte (224 + cp / 4096))
      (String (byte (128 + (cp / 64) mod 64))
         (String (byte (128 + cp mod 64)) EmptyString))
  else
    String (byte (240 + cp / 262144))
      (String (byte (128 + (cp / 4096) mod 64))
         (String (byte (128 + (cp / 64) mod 64))
            (String (byte (128 + cp mod 64)) EmptyString))).

(** A scanned piece of a string literal: a character copied as it is, or
    the code point of a [\uXXXX] escape. *)
Inductive piece : Type :=
| Plain (c : ascii)
| Escaped (cp : N).

Definition simple_escape (c : ascii) : option ascii :=
  if Ascii.eqb c "034" then Some "034"%char
  else if Ascii.eqb c "\" then Some "\"%char
  else if Ascii.eqb c "/" then Some "/"%char
  else if Ascii.eqb c "b" then Some "008"%char
  else if Ascii.eqb c "f" then Some "012"%char
  else if Ascii.eqb c "n" then Some "010"%char
  else if Ascii.eqb c "r" then Some "013"%char
  else if Ascii.eqb c "t" then Some "009"%char
  else None.

(** The body of a string literal after its opening quote, up to and
    including the closing quote (strict mode: no control character). *)
Fixpoint scan_pieces (s : string) : option (list piece * string) :=
  match s with
  | EmptyString => None
  | String c r =>
      if Ascii.eqb c "034" then Some ([], r)
      else if Ascii.eqb c "\" then
        match r with
        | String e r1 =>
            match simple_escape e with
            | Some ch =>
                '(ps, rest) ← scan_pieces r1; Some (Plain ch :: ps, rest)
            | None =>
                if Ascii.eqb e "u" then
                  match r1 with
                  | String h1 (String h2 (String h3 (String h4 r2))) =>
                      cp ← hex4 h1 h2 h3 h4;
                      '(ps, rest) ← scan_pieces r2;
                      Some (Escaped cp :: ps, rest)
                  | _ => None
                  end
                else None
            end
        | EmptyString => None
        end
      else if (N_of_ascii c <? 32)%N then None
      else '(ps, rest) ← scan_pieces r; Some (Plain c :: ps, rest)
  end.

(** Two escapes in a row that form a surrogate pair are one code point. *)
Fixpoint assemble (ps : list piece) : string :=
  match ps with
  | [] => EmptyString
  | Plain c :: ps' => String c (assemble ps')
  | Escaped hi :: ps' =>
      match ps' with
      | Escaped lo :: ps'' =>
          if (55296 <=? hi)%N && (hi <=? 56319)%N
             && (56320 <=? lo)%N && (lo <=? 57343)%N
          then utf8 (65536 + (hi - 55296) * 1024 + (lo - 56320))
                 +:+ assemble ps''
          else utf8 hi +:+ assemble ps'
      | _ => utf8 hi +:+ assemble ps'
      end
  end.

Definition scan_string (s : string) : option (string * string) :=
  '(ps, rest) ← scan_pieces s; Some (assemble ps, rest).

(** A number: an integer part, then a fraction and an exponent that count
    only when complete. *)
Definition scan_number (s : string) : option (pyval * string) :=
  let '(neg, s1) :=
    match s with
    | String "-" r => (true, r)
    | _ => (false, s)
    end in
  match s1 with
  | String c r =>
      if is_digit c then
        let '(ip, r1) :=
          if Ascii.eqb c "0" then (String c EmptyString, r)
          else span_digits s1 in
        let '(frac, r2) :=
          match r1 with
          | String "." t =>
              match span_digits t with
              | (EmptyString, _) => (None, r1)
              | (fd, t') => (Some fd, t')
              end
          | _ => (None, r1)
          end in
        let '(exp, r3) :=
          match r2 with
          | String e t =>
              if Ascii.eqb e "e" || Ascii.eqb e "E" then
                let '(eneg, t1) :=
                  match t with
                  | String "-" x => (true, x)
                  | String "+" x => (false, x)
                  | _ => (false, t)
                  end in
                match span_digits t1 with
                | (EmptyString, _) => (None, r2)
                | (ed, t2) =>
                    let v := Z.of_N (digits_value 0 ed) in
                    (Some (if eneg : bool then - v else v), t2)
                end
              else (None, r2)
          | EmptyString => (None, r2)
          end in
        match frac, exp with
        | None, None =>
            let v := Z.of_N (digits_value 0 ip) in
            Some (PInt (if neg : bool then - v else v), r3)
        | _, _ =>
            let fd := default EmptyString frac in
            Some (PFloat (FDec neg (digits_value 0 (ip +:+ fd))
                            (default 0 exp - Z.of_nat (String.length fd))),
                  r3)
        end
      else None
  | EmptyString => None
  end.

(** What follows [p] at the start of [s]. *)
Fixpoint after_prefix (p s : string) : option string :=
  match p, s with
  | EmptyString, _ => Some s
  | String a p', String b s' =>
      if Ascii.eqb a b then after_prefix p' s' else None
  | _, _ => None
  end.

Definition scan_constant (s : string) : option (pyval * string) :=
  match after_prefix "null" s with Some r => Some (PNone, r) | None =>
  match after_prefix "true" s with Some r => Some (PBool true, r) | None =>
  match after_prefix "false" s with Some r => Some (PBool false, r) | None =>
  match scan_number s with Some vr => Some vr | None =>
  match after_prefix "NaN" s with Some r => Some (PFloat FNaN, r) | None =>
  match after_prefix "Infinity" s with
  | Some r => Some (PFloat (FInf false), r)
  | None =>
  match after_prefix "-Infinity" s with
  | Some r => Some (PFloat (FInf true), r)
  | None => None
  end end end end end end end.

(** The scanner: one value at the start of [s]. [scan_items] reads the
    items of an array after the first bracket, [scan_members] the members
    of an object from a key on. Each call takes one unit of fuel and
    every value consumes input; [loads] starts with twice the length of the
    text. *)
Fixpoint scan_value (fuel : nat) (s : string) : option (pyval * string) :=
  match fuel with
  | O => None
  | S fuel' =>
      match s with
      | String c r =>
          if Ascii.eqb c "034" then
            '(str, rest) ← scan_string r; Some (PStr str, rest)
          else if Ascii.eqb c "{" then
            match skip_ws r with
            | String "}" rest => Some (PDict [], rest)
            | t => scan_members fuel' t []
            end
          else if Ascii.eqb c "[" then
            match skip_ws r with
            | String "]" rest => Some (PList [], rest)
            | t => scan_items fuel' t []
            end
          else scan_constant s
      | EmptyString => None
      end
  end
with scan_items (fuel : nat) (s : string) (acc : list pyval)
    : option (pyval * string) :=
  match fuel with
  | O => None
  | S fuel' =>
      '(v, r) ← scan_value fuel' s;
      match skip_ws r with
      | String "]" rest => Some (PList (acc ++ [v]), rest)
      | String "," rest => scan_items fuel' (skip_ws rest) (acc ++ [v])
      | _ => None
      end
  end
with scan_members (fuel : nat) (s : string) (acc : list (string * pyval))
    : option (pyval * string) :=
  match fuel with
  | O => None
  | S fuel' =>
      match s with
      | String "034" r =>
          '(key, r1) ← scan_string r;
          match skip_ws r1 with
          | String ":" r2 =>
              '(v, r3) ← scan_value fuel' (skip_ws r2);
              match skip_ws r3 with
              | String "}" rest => Some (PDict (dict_set key v acc), rest)
              | String "," rest =>
                  scan_members fuel' (skip_ws rest) (dict_set key v acc)
              | _ => None
              end
          | _ => None
          end
      | _ => None
      end
  end.

Definition decode_error : exn := Exn JSONDecodeError "invalid JSON text".

(** [json.loads(s)]: one value between optional whitespace, nothing
    after it. *)
Definition loads (s : string) : res pyval :=
  match scan_value (2 * String.length s + 2) (skip_ws s) with
  | Some (v, rest) =>
      match skip_ws rest with
      | EmptyString => Ok v
      | String _ _ => Raise decode_error
      end
  | None => Raise decode_error
  end.

End Json.

Module Builtins.

(** The ASCII characters [int] takes for whitespace around the digits. *)
Definition is_space (c : ascii) : bool :=
  let n := N_of_ascii c in
  ((9 <=? n)%N && (n <=? 13)%N) || (n =? 32)%N.

Fixpoint lstrip (l : list ascii) : list ascii :=
  match l with
  | c :: l' => if is_space c then lstrip l' else l
  | [] => []
  end.

Definition strip (l : list ascii) : list ascii :=
  rev (lstrip (rev (lstrip l))).

(** Decimal digits, single underscores allowed between two digits.
    [count] is the number of digits read, [after_digit] whether the
    previous character was one. *)
Fixpoint int_digits (l : list ascii) (acc : Z) (count : nat)
    (after_digit : bool) : option (Z * nat) :=
  match l with
  | [] => if after_digit then Some (acc, count) else None
  | c :: l' =>
      if Json.is_digit c then
        int_digits l' (acc * 10 + Z.of_N (Json.digit_value c)) (S count) true
      else if Ascii.eqb c "_" && after_digit then
        int_digits l' acc count false
      else None
  end.

(** [int(s)] on ASCII text: surrounding whitespace, one optional sign,
    digits; more than 4300 digits are refused. *)
Definition int (s : string) : option Z :=
  let l := strip (list_ascii_of_string s) in
  let '(neg, ds) :=
    match l with
    | "-"%char :: r => (true, r)
    | "+"%char :: r => (false, r)
    | _ => (false, l)
    end in
  '(v, count) ← int_digits ds 0 0 false;
  if (4300 <? count)%nat then None
  else Some (if neg : bool then - v else v).

(** The decimal digits of a natural number, put in front of [acc];
    [fuel] bounds their number. *)
Fixpoint digits_of (fuel : nat) (n : N) (acc : string) : string :=
  match fuel with
  | O => acc
  | S fuel' =>
      let acc' := String (ascii_of_N (48 + n mod 10)) acc in
      if (n <? 10)%N then acc' else digits_of fuel' (n / 10)%N acc'
  end.

Definition str_of_N (n : N) : string :=
  digits_of (S (N.to_nat (N.log2 n))) n EmptyString.

Definition str_of_Z (z : Z) : string :=
  if z <? 0 then "-" +:+ str_of_N (Z.to_N (- z)) else str_of_N (Z.to_N z).

(** [repr(v)]. It is Python's on [None], the booleans, the integers, the
    constants [nan] and [inf], strings of printable ASCII without quote or
    backslash, and lists and dicts of those; a decimal float is shown by
    its digits and exponent, which is not Python's shortest form. *)
Fixpoint repr (v : pyval) : string :=
  match v with
  | PNone => "None"
  | PBool true => "True"
  | PBool false => "False"
  | PInt n => str_of_Z n
  | PFloat FNaN => "nan"
  | PFloat (FInf false) => "inf"
  | PFloat (FInf true) => "-inf"
  | PFloat (FDec neg m e) =>
      (if neg then "-" else EmptyString) +:+ str_of_N m +:+ "e" +:+ str_of_Z e
  | PStr s => "'" +:+ s +:+ "'"
  | PList l => "[" +:+ join ", " (map repr l) +:+ "]"
  | PDict d =>
      "{" +:+ join ", "
                (map (fun kv => "'" +:+ fst kv +:+ "': " +:+ repr (snd kv)) d)
        +:+ "}"
  end.

End Builtins.

Definition cpython : runtime :=
  Runtime Json.loads Builtins.repr Builtins.int.

(** [json_text s] is [s] with every apostrophe turned into a double quote:
    a way to write JSON texts down. *)
Definition json_text (s : string) : string := replace_char "'"%char dquote s.

(** ** The vocabulary of the specification *)

(** *** Escaped text and the shape of a message *)

(** The entity that stands for a character in HTML text. *)
Definition entity (c : ascii) : string :=
  if Ascii.eqb c "&" then "&amp;"
  else if Ascii.eqb c "<" then "&lt;"
  else if Ascii.eqb c ">" then "&gt;"
  else if Ascii.eqb c "034" then "&quot;"
  else if Ascii.eqb c "'" then "&#x27;"
  else String c EmptyString.

(** A text with each of its characters replaced by its entity. *)
Fixpoint html_escaped (s : string) : string :=
  match s with
  | EmptyString => EmptyString
  | String c s' => entity c +:+ html_escaped s'
  end.








(** *** A commit entry of the expected shape *)

Definition field (v : pyval) (key : string) : option pyval :=
  match v with
  | PDict d => dict_get key d
  | _ => None
  end.

(** A field that is a string when it is there. *)
Definition optional_str (o : option pyval) : bool :=
  match o with
  | None | Some (PStr _) => true
  | Some _ => false
  end.

(** A field that is a string or [null] when it is there. *)
Definition optional_name (o : option pyval) : bool :=
  match o with
  | None | Some (PStr _) | Some PNone => true
  | Some _ => false
  end.

(** An object whose [id] and [message] are strings and whose [author] is an
    object with string (or null) [username] and [name], each of them
    optional. *)
Definition valid_commit (c : pyval) : bool :=
  match c with
  | PDict d =>
      optional_str (dict_get "id" d) && optional_str (dict_get "message" d)
      && match dict_get "author" d with
         | None => true
         | Some (PDict a) =>
             optional_name (dict_get "username" a)
             && optional_name (dict_get "name" a)
         | Some _ => false
         end
  | _ => false
  end.

(** The string in a field, empty when there is none. *)
Definition str_field (v : pyval) (key : string) : string :=
  match field v key with
  | Some (PStr s) => s
  | _ => EmptyString
  end.

Definition commit_id (c : pyval) : string := str_field c "id".

(** The message on one line. *)
Definition commit_message (c : pyval) : string :=
  replace_char "010"%char " " (str_field c "message").

(** The username, else the name, else "unknown". *)
Definition commit_author (c : pyval) : string :=
  let a := from_option id (PDict []) (field c "author") in
  match str_field a "username" with
  | String x u => String x u
  | EmptyString =>
      match str_field a "name" with
      | String x n => String x n
      | EmptyString => "unknown"
      end
  end.

Definition commit_url (repo : string) (c : pyval) : string :=
  "https://github.com/" +:+ repo +:+ "/commit/" +:+ commit_id c.

(** The line of a commit, as the specification writes it. *)
Definition spec_commit_line (repo : string) (c : pyval) : string :=
  "- <a href=" +:+ dquote +:+ commit_url repo c +:+ dquote +:+ ">"
    +:+ str_take 7 (commit_id c) +:+ "</a> — "
    +:+ html_escaped (commit_message c)
    +:+ " (by " +:+ html_escaped (commit_author c) +:+ ")".


(** *** Event kinds *)

Inductive event_kind : Type :=
| PullRequest
| Issue
| Push
| WorkflowRun.

(** A variable is present when it is set to a non-empty value. *)
Definition present (env : gmap string string) (name : string) : bool :=
  str_truthy (env !! name).

(** The event-type hint has the given value. *)
Definition hint (env : gmap string string) (lit : string) : bool :=
  opt_eqb (env !! "EVENT_TYPE") lit.

(** The precedence of the classifier, first match first. *)
Definition classify (env : gmap string string) : option event_kind :=
  if hint env "pull_request" || present env "PR_NUMBER" then Some PullRequest
  else if hint env "issues" || present env "ISSUE_NUMBER" then Some Issue
  else if hint env "push" || present env "PUSH_BRANCH" then Some Push
  else if hint env "workflow_run" || present env "WORKFLOW_NAME"
       then Some WorkflowRun
  else None.

(** The formatter branch of an event kind. *)
Definition event_message (rt : runtime) (env : gmap string string)
    (repo actor : string) (k : event_kind) : proc string :=
  match k with
  | PullRequest => pull_request_event env repo actor
  | Issue => issue_event env repo actor
  | Push => push_event rt env repo actor
  | WorkflowRun => workflow_run_event env repo actor
  end.

(** The variables every run requires, and those the branch of a kind
    requires. *)
Definition common_required : list string :=
  ["TELEGRAM_BOT_TOKEN"; "TELEGRAM_CHAT_ID"; "GITHUB_REPOSITORY";
   "GITHUB_ACTOR"].

Definition kind_required (k : event_kind) : list string :=
  match k with
  | PullRequest =>
      ["PR_NUMBER"; "PR_TITLE"; "PR_URL"; "BASE_REF"; "HEAD_REF"; "PR_ACTION"]
  | Issue => ["ISSUE_NUMBER"; "ISSUE_TITLE"; "ISSUE_URL"; "ISSUE_ACTION"]
  | Push => ["PUSH_BRANCH"]
  | WorkflowRun => ["WORKFLOW_NAME"; "WORKFLOW_CONCLUSION"]
  end.

(** *** Delivery *)

(** The response is a JSON object with a truthy [ok]. *)
Definition response_ok (rt : runtime) (response : res string) : bool :=
  match response with
  | Ok body =>
      match json_loads rt body with
      | Ok (PDict d) => truthy (from_option id PNone (dict_get "ok" d))
      | _ => false
      end
  | Raise _ => false
  end.

(** Two environments that agree on every variable once an empty value is
    read as no value. *)
Definition nonempty (v : option string) : option string :=
  if str_truthy v then v else None.

Definition same_present (env1 env2 : gmap string string) : Prop :=
  forall name, nonempty (env1 !! name) = nonempty (env2 !! name).

(** *** Further vocabulary *)

(** The characters [html.escape] replaces. *)
Definition special_char (c : ascii) : bool :=
  Ascii.eqb c "&" || Ascii.eqb c "<" || Ascii.eqb c ">" || Ascii.eqb c "034"
  || Ascii.eqb c "'".

(** No character of the text is replaced by [html.escape]. *)
Fixpoint plain_text (s : string) : bool :=
  match s with
  | EmptyString => true
  | String c s' => negb (special_char c) && plain_text s'
  end.

(** The character occurs in the text. *)
Fixpoint occurs (c : ascii) (s : string) : bool :=
  match s with
  | EmptyString => false
  | String x s' => Ascii.eqb x c || occurs c s'
  end.

(** The required variables in the order [main] reads them: the common
    ones, then those of the branch of the event kind. *)
Definition read_order (env : gmap string string) : list string :=
  common_required
  ++ match classify env with
     | Some k => kind_required k
     | None => []
     end.

(** The first required variable, in that order, that is not present. *)
Definition first_missing (env : gmap string string) : option string :=
  find (fun name => negb (present env name)) (read_order env).

(** The four values of the event-type hint that [main] compares with. *)
Definition known_hints : list string :=
  ["pull_request"; "issues"; "push"; "workflow_run"].

(** Every environment variable [main] reads, common ones first, then those
    of the four branches. *)
Definition variables_read : list string :=
  ["TELEGRAM_BOT_TOKEN"; "TELEGRAM_CHAT_ID"; "TELEGRAM_THREAD_ID";
   "GITHUB_REPOSITORY"; "GITHUB_ACTOR"; "EVENT_TYPE";
   "PR_NUMBER"; "PR_TITLE"; "PR_URL"; "BASE_REF"; "HEAD_REF"; "PR_ACTION";
   "PR_MERGED";
   "ISSUE_NUMBER"; "ISSUE_TITLE"; "ISSUE_URL"; "ISSUE_ACTION";
   "PUSH_BRANCH"; "PUSH_COMMITS";
   "WORKFLOW_NAME"; "WORKFLOW_CONCLUSION"; "WORKFLOW_EVENT";
   "WORKFLOW_BRANCH"; "WORKFLOW_URL"].

(** Ten commit entries, as the items of a JSON array written with
    apostrophes. *)
Definition ten_entries : string :=
  "{'id':'01'},{'id':'02'},{'id':'03'},{'id':'04'},{'id':'05'},"
  +:+ "{'id':'06'},{'id':'07'},{'id':'08'},{'id':'09'},{'id':'10'}".

(** * Properties *)

#[local] Arguments String.append : simpl nomatch.

(** ** Strings *)

Lemma str_app_assoc (a b c : string) : (a +:+ b) +:+ c = a +:+ (b +:+ c).
Proof. induction a as [|x a IH]; simpl; [reflexivity | now rewrite IH]. Qed.


Lemma str_chars_cons (c d : ascii) (s : string) :
  str_chars (String c (String d s))
  = if is_continuation d
    then match str_chars (String d s) with
         | x :: l => String c x :: l
         | [] => [String c EmptyString]
         end
    else String c EmptyString :: str_chars (String d s).
Proof. reflexivity. Qed.

Lemma str_chars_nil (s : string) : str_chars s = [] -> s = EmptyString.
Proof.
  destruct s as [|c [|d s]]; [reflexivity | intros H; discriminate H |].
  rewrite str_chars_cons.
  destruct (is_continuation d); [|intros H; discriminate H].
  destruct (str_chars (String d s)); intros H; discriminate H.
Qed.

Lemma str_take_nil (n : nat) (s : string) :
  str_take (S n) s = EmptyString -> s = EmptyString.
Proof.
  destruct s as [|c s]; [reflexivity|]. cbn [str_take].
  destruct (is_continuation c); intros H; discriminate H.
Qed.

Lemma str_chars_after (s : string) (n : nat) (c : ascii) :
  str_chars (String c (str_take n s)) = take (S n) (str_chars (String c s)).
Proof.
  revert n c. induction s as [|d s IH]; intros n c; [now destruct n|].
  rewrite str_chars_cons. cbn [str_take].
  destruct (is_continuation d) eqn:Hd.
  - rewrite str_chars_cons, Hd, IH.
    destruct (str_chars (String d s)) as [|x l] eqn:Hx.
    + apply str_chars_nil in Hx. discriminate Hx.
    + reflexivity.
  - destruct n as [|n]; [reflexivity|].
    rewrite str_chars_cons, Hd, IH. reflexivity.
Qed.

(** [s[:n]] holds the first [n] characters of [s], for a text that starts
    with a character. *)
Lemma str_take_chars (n : nat) (s : string) :
  match s with
  | String c _ => is_continuation c = false
  | EmptyString => True
  end ->
  str_chars (str_take n s) = take n (str_chars s).
Proof.
  destruct s as [|c s]; [now destruct n|]. intros Hc.
  cbn [str_take]. rewrite Hc. destruct n as [|n]; [reflexivity|].
  apply str_chars_after.
Qed.

Lemma replace_char_app (old : ascii) (new a b : string) :
  replace_char old new (a +:+ b)
  = replace_char old new a +:+ replace_char old new b.
Proof.
  induction a as [|x a IH]; simpl; [reflexivity|].
  destruct (Ascii.eqb x old); simpl; rewrite IH; [|reflexivity].
  now rewrite str_app_assoc.
Qed.

Lemma html_escaped_app (a b : string) :
  html_escaped (a +:+ b) = html_escaped a +:+ html_escaped b.
Proof.
  induction a as [|x a IH]; simpl; [reflexivity|].
  now rewrite IH, str_app_assoc.
Qed.

(** The five replacements of [html.escape] amount to replacing each
    character by its entity. *)
Lemma escape_html_escaped (s : string) : escape s = html_escaped s.
Proof.
  unfold escape. induction s as [|c s IH]; [reflexivity|].
  cbn [replace_char html_escaped]. unfold entity.
  destruct (Ascii.eqb_spec c "&") as [->|_].
  { rewrite !replace_char_app, IH. reflexivity. }
  cbn [replace_char].
  destruct (Ascii.eqb_spec c "<") as [->|_].
  { rewrite !replace_char_app, IH. reflexivity. }
  cbn [replace_char].
  destruct (Ascii.eqb_spec c ">") as [->|_].
  { rewrite !replace_char_app, IH. reflexivity. }
  cbn [replace_char].
  destruct (Ascii.eqb_spec c "034") as [->|_].
  { rewrite !replace_char_app, IH. reflexivity. }
  cbn [replace_char].
  destruct (Ascii.eqb_spec c "'") as [->|_].
  { rewrite IH. reflexivity. }
  rewrite IH. reflexivity.
Qed.




(** ** The exception layer *)

Lemma res_bind_ok {A B : Type} (f : A -> res B) (a : A) :
  (Ok a ≫= f) = f a.
Proof. reflexivity. Qed.

Lemma res_bind_raise {A B : Type} (f : A -> res B) (e : exn) :
  (Raise e ≫= f) = Raise e.
Proof. reflexivity. Qed.

(** ** Commit lines *)

(** On an entry of the expected shape the loop body returns the line of the
    specification. *)
Lemma commit_line_valid (rt : runtime) (repo : string) (c : pyval) :
  valid_commit c = true ->
  commit_line rt repo c = Ok (spec_commit_line repo c).
Proof.
  destruct c as [| | | | |l|d]; try discriminate. intros Hv.
  unfold valid_commit in Hv.
  apply andb_prop in Hv as [Hv Hauthor]. apply andb_prop in Hv as [Hid Hmsg].
  unfold commit_line, spec_commit_line, commit_url, commit_id, commit_message,
    commit_author, str_field, field, py_get.
  destruct (dict_get "id" d) as [[| | | |sid| |]|]; try discriminate;
  destruct (dict_get "message" d) as [[| | | |smsg| |]|]; try discriminate;
  (destruct (dict_get "author" d) as [[| | | | | |a]|]; try discriminate;
   cbn -[str_take String.append escape html_escaped];
   [ apply andb_prop in Hauthor as [Hu Hn];
     destruct (dict_get "username" a) as [[| | | |[|x u]| |]|];
     try discriminate;
     destruct (dict_get "name" a) as [[| | | |[|y n]| |]|];
     try discriminate
   | ]);
  cbn -[str_take String.append escape html_escaped];
  rewrite ?escape_html_escaped; reflexivity.
Qed.

(** A line the loop body returns starts with a hyphen. *)
Lemma commit_line_hyphen (rt : runtime) (repo : string) (c : pyval)
    (line : string) :
  commit_line rt repo c = Ok line -> exists rest, line = String "-" rest.
Proof.
  unfold commit_line. intros H.
  repeat match type of H with
         | (?m ≫= _) = Ok _ =>
             let E := fresh "E" in
             destruct m eqn:E; [rewrite res_bind_ok in H | discriminate H]
         end.
  injection H as <-. eexists. reflexivity.
Qed.

(** ** C5 *)

(** C5. For every action string and merged flag, the status of a pull
    request is "merged" when the action is "closed" and the flag is set,
    "updated" when the action is "synchronize", and the action itself in
    every other case. *)
Theorem get_pr_status_spec (action : string) (merged : bool) :
  (action = "closed" -> merged = true ->
   get_pr_status action merged = "merged")
  /\ (action = "synchronize" -> get_pr_status action merged = "updated")
  /\ (action <> "synchronize" -> ~ (action = "closed" /\ merged = true) ->
      get_pr_status action merged = action).
Proof.
  unfold get_pr_status. repeat split.
  - intros -> ->. reflexivity.
  - intros ->. reflexivity.
  - intros Hsync Hmerged.
    destruct (String.eqb_spec action "closed") as [->|_]; simpl.
    + destruct merged; [exfalso; apply Hmerged; split; reflexivity|].
      reflexivity.
    + destruct (String.eqb_spec action "synchronize"); [contradiction|].
      reflexivity.
Qed.

Lemma get_pr_status_spec_witness :
  get_pr_status "closed" true = "merged"
  /\ get_pr_status "synchronize" false = "updated"
  /\ get_pr_status "opened" false = "opened"
  /\ get_pr_status "closed" false = "closed".
Proof.
  split; [apply (get_pr_status_spec "closed" true); reflexivity|].
  split; [apply (get_pr_status_spec "synchronize" false); reflexivity|].
  split.
  - apply (get_pr_status_spec "opened" false); [discriminate|].
    intros [H _]; discriminate H.
  - apply (get_pr_status_spec "closed" false); [discriminate|].
    intros [_ H]; discriminate H.
Defined.

(** ** The loop over the commits *)

Lemma render_commits_valid (rt : runtime) (repo : string) (cs : list pyval) :
  forallb valid_commit cs = true ->
  forall acc,
    render_commits rt repo cs acc
    = Ok (acc ++ map (spec_commit_line repo) cs).
Proof.
  induction cs as [|c cs IH]; intros Hv acc; simpl.
  - now rewrite app_nil_r.
  - simpl in Hv. apply andb_prop in Hv as [Hc Hcs].
    rewrite (commit_line_valid rt repo c Hc), res_bind_ok, (IH Hcs).
    now rewrite <- app_assoc.
Qed.

(** Whatever the entries, the lines the loop returns are the ones it
    started with, then one line per entry, each starting with a hyphen. *)
Lemma render_commits_lines (rt : runtime) (repo : string) (cs : list pyval) :
  forall acc lines,
    render_commits rt repo cs acc = Ok lines ->
    exists new,
      lines = acc ++ new /\ length new = length cs
      /\ Forall (fun line => exists rest, line = String "-" rest) new.
Proof.
  induction cs as [|c cs IH]; intros acc lines H; simpl in H.
  - injection H as <-. exists []. now rewrite app_nil_r.
  - destruct (commit_line rt repo c) as [line|e] eqn:E; [|discriminate H].
    rewrite res_bind_ok in H. apply IH in H as (new & -> & Hlen & Hall).
    exists (line :: new). rewrite <- app_assoc. repeat split.
    + simpl. now rewrite Hlen.
    + constructor; [|exact Hall]. exact (commit_line_hyphen rt repo c line E).
Qed.

(** The lines the loop adds are the lines of the entries, in order. *)
Lemma render_commits_each (rt : runtime) (repo : string) (cs : list pyval) :
  forall acc lines,
    render_commits rt repo cs acc = Ok lines ->
    exists new,
      lines = acc ++ new
      /\ Forall2 (fun commit line => commit_line rt repo commit = Ok line)
           cs new.
Proof.
  induction cs as [|c cs IH]; intros acc lines H; simpl in H.
  - injection H as <-. exists []. split; [now rewrite app_nil_r|constructor].
  - destruct (commit_line rt repo c) as [line|e] eqn:E; [|discriminate H].
    rewrite res_bind_ok in H. apply IH in H as (new & -> & Hall).
    exists (line :: new). rewrite <- app_assoc. split; [reflexivity|].
    constructor; assumption.
Qed.

Lemma sentinels_differ : no_commit_messages <> error_parsing_commits.
Proof. discriminate. Qed.

Lemma sentinel_no_hyphen (rest : string) :
  no_commit_messages <> String "-" rest.
Proof. discriminate. Qed.

Lemma map_fmap {A B : Type} (f : A -> B) (l : list A) : map f l = f <$> l.
Proof. induction l as [|x l IH]; simpl; [reflexivity | now rewrite IH]. Qed.

Lemma str_truthy_some (data : string) :
  data <> EmptyString -> str_truthy (Some data) = true.
Proof. destruct data; [congruence | reflexivity]. Qed.





(** ** C1 *)



(** ** C6, C3 and C4: the push formatter *)

(** C6. When the payload decodes to a list, the lines the push formatter
    returns, when they are not a sentinel, are one line per entry for the
    first 10 entries, in the order of the list: [min 10 (length commits)]
    lines (10 for 15 entries), the i-th made from the i-th entry. When these
    entries have the expected shape, the formatter does return, and the i-th
    line is the line the specification gives for the i-th entry: a link from
    the first 7 characters of [id] to [https://github.com/{repo}/commit/{id}],
    the message with its newlines turned into spaces, escaped, and the
    author (username, else name, else "unknown"), escaped. *)
Theorem push_renders_first_ten (rt : runtime) (repo data : string)
    (commits : list pyval) :
  data <> EmptyString ->
  json_loads rt data = Ok (PList commits) ->
  (forall lines,
     commits_list rt repo (Some data) = Ok lines ->
     (commits = [] /\ lines = [no_commit_messages])
     \/ lines = [error_parsing_commits]
     \/ (length lines = Nat.min 10 (length commits)
         /\ Forall2 (fun commit line => commit_line rt repo commit = Ok line)
              (take 10 commits) lines))
  /\ (forallb valid_commit (take 10 commits) = true ->
      commits <> [] ->
      exists lines,
        commits_list rt repo (Some data) = Ok lines
        /\ lines = map (spec_commit_line repo) (take 10 commits)
        /\ length lines = Nat.min 10 (length commits)
        /\ (forall i, (i < length lines)%nat ->
            lines !! i = spec_commit_line repo <$> commits !! i)).
Proof.
  intros Hdata Hjson.
  assert (Hlist : commits_list rt repo (Some data)
                  = (lines ←
                       match render_commits rt repo (take 10 commits) [] with
                       | Ok lines => Ok lines
                       | Raise e =>
                           if push_handles e then Ok [error_parsing_commits]
                           else Raise e
                       end;
                     match lines with
                     | [] => Ok [no_commit_messages]
                     | _ :: _ => Ok lines
                     end)).
  { unfold commits_list. rewrite (str_truthy_some data Hdata).
    unfold try_commits. cbn [default from_option id].
    rewrite Hjson. reflexivity. }
  split.
  - intros lines. rewrite Hlist.
    destruct (render_commits rt repo (take 10 commits) []) as [ls|e] eqn:Hloop.
    + apply render_commits_each in Hloop as (new & -> & Hall).
      cbn [app mbind res_bind]. destruct new as [|line new].
      * intros [= <-]. left. split; [|reflexivity].
        apply Forall2_nil_inv_r in Hall. now destruct commits.
      * intros [= <-]. right. right. split; [|exact Hall].
        rewrite <- (Forall2_length _ _ _ Hall). apply length_take.
    + destruct (push_handles e); cbn [mbind res_bind]; [|discriminate].
      intros [= <-]. right. left. reflexivity.
  - intros Hvalid Hne.
    exists (map (spec_commit_line repo) (take 10 commits)).
    assert (Hlen : length (map (spec_commit_line repo) (take 10 commits))
                   = Nat.min 10 (length commits)).
    { now rewrite length_map, length_take. }
    repeat split.
    + rewrite Hlist.
      rewrite (render_commits_valid rt repo (take 10 commits) Hvalid []).
      cbn [app]. destruct commits as [|c cs]; [congruence|]. reflexivity.
    + exact Hlen.
    + intros i Hi. rewrite Hlen in Hi.
      rewrite map_fmap, list_lookup_fmap, lookup_take_lt by lia.
      reflexivity.
Qed.

Lemma push_renders_first_ten_witness :
  let data := json_text
    ("[{'id':'01abcdef0123456789','message':'change 1','author':{'username':'dev1'}},"
     +:+ "{'id':'02abcdef0123456789','message':'change 2','author':{'username':'dev2'}},"
     +:+ "{'id':'03abcdef0123456789','message':'change 3','author':{'username':'dev3'}},"
     +:+ "{'id':'04abcdef0123456789','message':'change 4','author':{'username':'dev4'}},"
     +:+ "{'id':'05abcdef0123456789','message':'change 5','author':{'username':'dev5'}},"
     +:+ "{'id':'06abcdef0123456789','message':'change 6','author':{'username':'dev6'}},"
     +:+ "{'id':'07abcdef0123456789','message':'change 7','author':{'username':'dev7'}},"
     +:+ "{'id':'08abcdef0123456789','message':'change 8','author':{'username':'dev8'}},"
     +:+ "{'id':'09abcdef0123456789','message':'change 9','author':{'username':'dev9'}},"
     +:+ "{'id':'10ééééééabcdef','message':'change 10','author':{'username':'dev10'}},"
     +:+ "{'id':'11abcdef0123456789','message':'change 11','author':{'username':'dev11'}},"
     +:+ "{'id':'12abcdef0123456789','message':'change 12','author':{'username':'dev12'}},"
     +:+ "{'id':'13abcdef0123456789','message':'change 13','author':{'username':'dev13'}},"
     +:+ "{'id':'14abcdef0123456789','message':'change 14','author':{'username':'dev14'}},"
     +:+ "{'id':'15abcdef0123456789','message':'change 15','author':{'username':'dev15'}}]") in
  exists lines,
    commits_list cpython "octo/repo" (Some data) = Ok lines
    /\ length lines = 10%nat
    /\ lines !! 9%nat
       = Some ("- <a href=" +:+ dquote
                 +:+ "https://github.com/octo/repo/commit/10ééééééabcdef"
                 +:+ dquote +:+ ">10ééééé</a> — change 10 (by dev10)").
Proof.
  intros data.
  let r := eval vm_compute in (json_loads cpython data) in
  match r with
  | Ok (PList ?cs) =>
      destruct (push_renders_first_ten cpython "octo/repo" data cs)
        as [_ Hshape];
      [ vm_compute; discriminate
      | vm_compute; reflexivity
      | destruct Hshape as (lines & Hlines & Heq & Hlen & Hnth);
        [ reflexivity
        | discriminate
        | exists lines; split; [exact Hlines|]; split; [exact Hlen|];
          rewrite Hnth by (rewrite Hlen; simpl; lia); reflexivity ] ]
  end.
Defined.

(** A decoded value that is neither a list nor a string: a number, a
    boolean, [null] or an object. Slicing it raises what the [except]
    clause names. *)
Lemma try_commits_not_a_sequence (rt : runtime) (repo data : string)
    (v : pyval) :
  json_loads rt data = Ok v ->
  match v with PList _ | PStr _ => False | _ => True end ->
  exists e, try_commits rt repo data = Raise e /\ push_handles e = true.
Proof.
  intros Hjson Hshape. unfold try_commits. rewrite Hjson.
  destruct v; try contradiction; eexists; split; reflexivity.
Qed.

(** The [try] block ends with no line only on an empty list or an empty
    string. *)
Lemma try_commits_empty (rt : runtime) (repo data : string) :
  try_commits rt repo data = Ok [] ->
  json_loads rt data = Ok (PList [])
  \/ json_loads rt data = Ok (PStr EmptyString).
Proof.
  unfold try_commits. destruct (json_loads rt data) as [v|e]; [|discriminate].
  rewrite res_bind_ok.
  destruct v as [| | | |s|l|d]; try discriminate;
    cbn [py_slice py_iter mbind res_bind]; intros H;
    apply render_commits_lines in H as (new & Hnew & Hlen & _);
    destruct new; try discriminate.
  - right. simpl in Hlen. rewrite length_map in Hlen.
    destruct (str_chars (str_take 10 s)) eqn:Hchars; [|discriminate].
    apply str_chars_nil, (str_take_nil 9) in Hchars. now subst.
  - destruct l; [now left | discriminate].
Qed.

(** C3, as the code has it. When the payload is absent or empty the lines
    of the push formatter are the single sentinel "— no commit messages —".
    When it is present and [json.loads] raises [JSONDecodeError], or the
    decoded value is a number, a boolean, [null] or an object, they are the
    single sentinel "— error parsing commits —". The sentinel
    "— no commit messages —" is produced only when the payload is absent or
    empty, or decodes to an empty list or an empty string. *)
Theorem commits_list_sentinels (rt : runtime) (repo : string)
    (commits_data : option string) :
  (str_truthy commits_data = false ->
   commits_list rt repo commits_data = Ok [no_commit_messages])
  /\ (forall data e,
        commits_data = Some data -> data <> EmptyString ->
        json_loads rt data = Raise e -> exn_class_of e = JSONDecodeError ->
        commits_list rt repo commits_data = Ok [error_parsing_commits])
  /\ (forall data v,
        commits_data = Some data -> data <> EmptyString ->
        json_loads rt data = Ok v ->
        match v with PList _ | PStr _ => False | _ => True end ->
        commits_list rt repo commits_data = Ok [error_parsing_commits])
  /\ (commits_list rt repo commits_data = Ok [no_commit_messages] <->
      str_truthy commits_data = false
      \/ exists data,
           commits_data = Some data
           /\ (json_loads rt data = Ok (PList [])
               \/ json_loads rt data = Ok (PStr EmptyString))).
Proof.
  split; [|split; [|split]].
  - intros H. unfold commits_list. rewrite H. reflexivity.
  - intros data e -> Hdata Hjson Hclass.
    unfold commits_list. rewrite (str_truthy_some data Hdata).
    unfold try_commits. cbn [default from_option id].
    rewrite Hjson, res_bind_raise. unfold push_handles. rewrite Hclass.
    reflexivity.
  - intros data v -> Hdata Hjson Hshape.
    unfold commits_list. rewrite (str_truthy_some data Hdata).
    cbn [default from_option id].
    destruct (try_commits_not_a_sequence rt repo data v Hjson Hshape)
      as (e & -> & ->).
    reflexivity.
  - split.
    + intros H. destruct (str_truthy commits_data) eqn:Htruthy; [|now left].
      right. destruct commits_data as [data|]; [|discriminate].
      exists data. split; [reflexivity|].
      unfold commits_list in H. rewrite Htruthy in H.
      cbn [default from_option id] in H.
      destruct (try_commits rt repo data) as [lines|e] eqn:Htry.
      * destruct lines as [|line lines].
        { exact (try_commits_empty rt repo data Htry). }
        exfalso. cbn in H. injection H as -> ->.
        unfold try_commits in Htry.
        destruct (json_loads rt data) as [v|]; [|discriminate].
        rewrite res_bind_ok in Htry.
        destruct (py_slice 10 v) as [w|]; [|discriminate].
        rewrite res_bind_ok in Htry.
        destruct (py_iter w) as [items|]; [|discriminate].
        rewrite res_bind_ok in Htry.
        apply render_commits_lines in Htry as (new & Hnew & _ & Hall).
        cbn [app] in Hnew. subst new.
        apply Forall_inv in Hall as [rest Hrest].
        exact (sentinel_no_hyphen rest Hrest).
      * exfalso. destruct (push_handles e); cbn in H; discriminate H.
    + intros [H|(data & -> & H)].
      * unfold commits_list. rewrite H. reflexivity.
      * unfold commits_list.
        destruct data as [|c data]; [reflexivity|].
        cbn [str_truthy default from_option id]. unfold try_commits.
        destruct H as [-> | ->]; reflexivity.
Qed.

Lemma commits_list_sentinels_witness :
  commits_list cpython "octo/repo" (Some EmptyString)
  = Ok [no_commit_messages]
  /\ commits_list cpython "octo/repo" (Some "not json")
     = Ok [error_parsing_commits]
  /\ commits_list cpython "octo/repo" (Some "{}")
     = Ok [error_parsing_commits]
  /\ commits_list cpython "octo/repo" (Some "[]") = Ok [no_commit_messages].
Proof.
  split; [|split; [|split]].
  - apply (proj1 (commits_list_sentinels cpython "octo/repo"
                    (Some EmptyString))).
    reflexivity.
  - apply (proj1 (proj2 (commits_list_sentinels cpython "octo/repo"
                           (Some "not json")))
             "not json" Json.decode_error);
      [reflexivity | discriminate | reflexivity | reflexivity].
  - apply (proj1 (proj2 (proj2 (commits_list_sentinels cpython "octo/repo"
                                  (Some "{}"))))
             "{}" (PDict []));
      [reflexivity | discriminate | reflexivity | exact I].
  - apply (proj2 (proj2 (proj2 (commits_list_sentinels cpython "octo/repo"
                                  (Some "[]"))))).
    right. exists "[]". split; [reflexivity|]. left. reflexivity.
Defined.

(** C3 as stated fails: with no payload the lines are the sentinel
    "— no commit messages —", not "— error parsing commits —". *)
Lemma absent_payload_is_no_parse_failure :
  commits_list cpython "octo/repo" None = Ok [no_commit_messages]
  /\ commits_list cpython "octo/repo" None <> Ok [error_parsing_commits].
Proof. split; [reflexivity | discriminate]. Qed.

(** Whatever the runtime, a decoded list whose first entry is not an
    object makes the push formatter raise the [AttributeError] of [.get]. *)
Lemma push_raises_on_non_object (rt : runtime) (repo actor branch data : string)
    (v : pyval) (rest : list pyval) :
  data <> EmptyString ->
  json_loads rt data = Ok (PList (v :: rest)) ->
  (forall d, v <> PDict d) ->
  format_push_message rt repo actor branch (Some data)
  = Raise (no_attribute v "get").
Proof.
  intros Hdata Hjson Hv. unfold format_push_message, commits_list.
  rewrite (str_truthy_some data Hdata). unfold try_commits.
  cbn [default from_option id]. rewrite Hjson.
  destruct v as [| | | | | |d]; try reflexivity.
  now destruct (Hv d).
Qed.

(** C4 fails on the code: an entry that is not an object, or an [author]
    that is not one, raises [AttributeError], which the [except] clause of
    the push formatter does not name; the formatter does not return, and
    the process ends on the uncaught exception, with exit code 1 and no
    request sent. *)
Theorem push_formatter_raises_on_shape_mismatch :
  format_push_message cpython "octo/repo" "bob" "main" (Some "[1]")
  = Raise (Exn AttributeError "'int' object has no attribute 'get'")
  /\ format_push_message cpython "octo/repo" "bob" "main"
       (Some (json_text "[{'id':'abcdef1234567','author':'alice'}]"))
     = Raise (Exn AttributeError "'str' object has no attribute 'get'")
  /\ (forall urlopen,
        main cpython urlopen
          (list_to_map
             [("TELEGRAM_BOT_TOKEN", "t"); ("TELEGRAM_CHAT_ID", "1");
              ("GITHUB_REPOSITORY", "octo/repo"); ("GITHUB_ACTOR", "bob");
              ("EVENT_TYPE", "push"); ("PUSH_BRANCH", "main");
              ("PUSH_COMMITS", "[1]")])
          io_init
        = (Uncaught (Exn AttributeError "'int' object has no attribute 'get'"),
           io_init)).
Proof. split; [|split]; [reflexivity | reflexivity |]. intros. reflexivity. Qed.

(** ** The process layer *)

Lemma proc_bind_unfold {A B : Type} (m : proc A) (f : A -> proc B)
    (io : io_state) :
  (m ≫= f) io
  = match m io with
    | (Done a, io') => f a io'
    | (Exited c, io') => (Exited c, io')
    | (Uncaught e, io') => (Uncaught e, io')
    end.
Proof. reflexivity. Qed.

Lemma bind_optional {B : Type} (env : gmap string string) (name : string)
    (f : option string -> proc B) (io : io_state) :
  (get_env_var env name false ≫= f) io = f (env !! name) io.
Proof. reflexivity. Qed.

Lemma bind_required {B : Type} (env : gmap string string) (name : string)
    (f : string -> proc B) (io : io_state) :
  (get_required env name ≫= f) io
  = if present env name then f (default EmptyString (env !! name)) io
    else (Exited 1, log_err (missing_diagnostic name) io).
Proof.
  unfold get_required, get_env_var, present.
  destruct (str_truthy (env !! name)); reflexivity.
Qed.

Lemma bind_hint {B : Type} (env : gmap string string) (lit name : string)
    (f : bool -> proc B) (io : io_state) :
  (hint_or_present env (env !! "EVENT_TYPE") lit name ≫= f) io
  = f (hint env lit || present env name) io.
Proof.
  unfold hint_or_present, hint, present.
  destruct (opt_eqb (env !! "EVENT_TYPE") lit); reflexivity.
Qed.

(** The [if]/[elif] chain runs the branch of the kind the precedence
    gives, and reports an unknown event when it gives none. *)
Lemma select_message_classify (rt : runtime) (env : gmap string string)
    (repo actor : string) (io : io_state) :
  select_message rt env repo actor io
  = match classify env with
    | Some k => event_message rt env repo actor k io
    | None => (Exited 1, log_err unknown_event_diagnostic io)
    end.
Proof.
  unfold select_message, classify.
  rewrite bind_optional, bind_hint.
  destruct (hint env "pull_request" || present env "PR_NUMBER");
    [reflexivity|].
  rewrite bind_hint.
  destruct (hint env "issues" || present env "ISSUE_NUMBER"); [reflexivity|].
  rewrite bind_hint.
  destruct (hint env "push" || present env "PUSH_BRANCH"); [reflexivity|].
  rewrite bind_hint.
  destruct (hint env "workflow_run" || present env "WORKFLOW_NAME");
    reflexivity.
Qed.

(** What a formatter branch can do: it sends nothing and prints nothing to
    the standard output; it returns a message when all its required
    variables are present, exits with code 1 and the diagnostic of a missing
    one otherwise, and only the push branch can end on an exception. *)
Lemma event_message_outcome (rt : runtime) (env : gmap string string)
    (repo actor : string) (k : event_kind) (io : io_state) :
  (forallb (present env) (kind_required k) = true
   /\ ((exists message,
          event_message rt env repo actor k io = (Done message, io))
       \/ (exists e,
             k = Push
             /\ event_message rt env repo actor k io = (Uncaught e, io))))
  \/ (exists name,
        In name (kind_required k) /\ present env name = false
        /\ event_message rt env repo actor k io
           = (Exited 1, log_err (missing_diagnostic name) io)).
Proof.
  destruct k; cbn [event_message kind_required forallb].
  - unfold pull_request_event.
    repeat (rewrite bind_required;
            match goal with
            | |- context [present env ?n] =>
                destruct (present env n) eqn:?;
                [| right; exists n; repeat split; [simpl; tauto | assumption] ]
            end).
    left. split; [reflexivity|]. left. eexists. reflexivity.
  - unfold issue_event.
    repeat (rewrite bind_required;
            match goal with
            | |- context [present env ?n] =>
                destruct (present env n) eqn:?;
                [| right; exists n; repeat split; [simpl; tauto | assumption] ]
            end).
    left. split; [reflexivity|]. left. eexists. reflexivity.
  - unfold push_event.
    rewrite bind_required.
    destruct (present env "PUSH_BRANCH") eqn:?;
      [| right; exists "PUSH_BRANCH"; repeat split;
         [simpl; tauto | assumption] ].
    left. split; [reflexivity|]. rewrite bind_optional. unfold propagate.
    destruct (format_push_message _ _ _ _ _) as [message|e].
    + left. eexists. reflexivity.
    + right. exists e. split; reflexivity.
  - unfold workflow_run_event.
    repeat (rewrite bind_required;
            match goal with
            | |- context [present env ?n] =>
                destruct (present env n) eqn:?;
                [| right; exists n; repeat split; [simpl; tauto | assumption] ]
            end).
    left. split; [reflexivity|]. left. eexists. reflexivity.
Qed.

(** ** The notifier *)

Lemma bind_http_call {B : Type} (urlopen : request -> res string)
    (req : request) (f : res string -> proc B) (io : io_state) :
  (http_call urlopen req ≫= f) io = f (urlopen req) (log_request req io).
Proof. reflexivity. Qed.

Lemma bind_propagate {A B : Type} (r : res A) (f : A -> proc B)
    (io : io_state) :
  (propagate r ≫= f) io
  = match r with
    | Ok a => f a io
    | Raise e => (Uncaught e, io)
    end.
Proof. destruct r; reflexivity. Qed.

(** [send_telegram_message], by what the form encoding, the network and the
    decoder give. *)
Lemma send_cases (rt : runtime) (urlopen : request -> res string)
    (bot_token chat_id message : string) (thread_id : option string)
    (io : io_state) :
  let req := build_request rt bot_token chat_id message thread_id in
  let io1 := log_request req io in
  send_telegram_message rt urlopen bot_token chat_id message thread_id io
  = match urlencode rt (req_data req) with
    | Raise e => (Uncaught e, io)
    | Ok _ =>
        match urlopen req with
        | Raise e => (Done false, log_err (send_failed_line (exn_text e)) io1)
        | Ok body =>
            match json_loads rt body with
            | Raise e =>
                (Done false, log_err (send_failed_line (exn_text e)) io1)
            | Ok (PDict d) =>
                if truthy (from_option id PNone (dict_get "ok" d))
                then (Done true, log_out sent_line io1)
                else (Done false,
                      log_err
                        (api_error_line
                           (fmt rt (from_option id (PStr "Unknown error")
                                      (dict_get "description" d)))) io1)
            | Ok v =>
                (Done false,
                 log_err (send_failed_line (exn_text (no_attribute v "get")))
                   io1)
            end
        end
    end.
Proof.
  intros req io1. unfold send_telegram_message. fold req.
  rewrite bind_propagate.
  destruct (urlencode rt (req_data req)) as [data_encoded|e]; [|reflexivity].
  rewrite bind_http_call. fold io1.
  destruct (urlopen req) as [body|e]; [|reflexivity].
  rewrite res_bind_ok.
  destruct (json_loads rt body) as [v|e]; [|reflexivity].
  rewrite res_bind_ok.
  destruct v as [| | | | | |d]; try reflexivity.
  cbn [py_get]. rewrite res_bind_ok.
  destruct (truthy (from_option id PNone (dict_get "ok" d)));
    reflexivity.
Qed.

(** When the form cannot be encoded the notifier raises before any request;
    otherwise it returns the verdict on the response, after exactly one
    request. *)
Lemma send_outcome (rt : runtime) (urlopen : request -> res string)
    (bot_token chat_id message : string) (thread_id : option string)
    (io : io_state) :
  let req := build_request rt bot_token chat_id message thread_id in
  match urlencode rt (req_data req) with
  | Raise e =>
      send_telegram_message rt urlopen bot_token chat_id message thread_id io
      = (Uncaught e, io)
  | Ok _ =>
      exists io',
        send_telegram_message rt urlopen bot_token chat_id message thread_id
          io
        = (Done (response_ok rt (urlopen req)), io')
        /\ requests io' = requests io ++ [req]
  end.
Proof.
  intros req. rewrite send_cases. fold req. unfold response_ok.
  destruct (urlencode rt (req_data req)) as [data_encoded|e]; [|reflexivity].
  destruct (urlopen req) as [body|e]; [|eexists; split; reflexivity].
  destruct (json_loads rt body) as [v|e]; [|eexists; split; reflexivity].
  destruct v as [| | | | | |d]; try (eexists; split; reflexivity).
  destruct (truthy (from_option id PNone (dict_get "ok" d)));
    eexists; split; reflexivity.
Qed.

(** The form of a request: the three fields every message has, then the
    thread identifier when there is one. *)
Lemma urlencode_form (rt : runtime) (chat_id message : string)
    (extra : list (string * pyval)) (body : string) :
  urlencode rt
    ([("chat_id", PStr chat_id); ("text", PStr message);
      ("parse_mode", PStr "HTML")] ++ extra)
  = Ok body ->
  exists c m rest,
    quote_plus chat_id = Ok c /\ quote_plus message = Ok m
    /\ urlencode_items rt extra = Ok rest
    /\ body
       = join "&"
           (("chat_id=" +:+ c) :: ("text=" +:+ m) :: "parse_mode=HTML"
            :: rest).
Proof.
  unfold urlencode. cbn [app urlencode_items fmt].
  change (quote_plus "chat_id") with (Ok (A := string) "chat_id").
  change (quote_plus "text") with (Ok (A := string) "text").
  change (quote_plus "parse_mode") with (Ok (A := string) "parse_mode").
  change (quote_plus "HTML") with (Ok (A := string) "HTML").
  rewrite !res_bind_ok.
  destruct (quote_plus chat_id) as [c|e]; [|discriminate].
  rewrite res_bind_ok.
  destruct (quote_plus message) as [m|e]; [|discriminate].
  rewrite !res_bind_ok.
  destruct (urlencode_items rt extra) as [rest|e]; [|discriminate].
  rewrite !res_bind_ok. intros [= <-].
  exists c, m, rest. repeat split; reflexivity.
Qed.

(** ** C7 and C9 *)

(** C7. The notifier makes at most one request. The form is encoded before
    the [try]: when a field cannot be encoded the exception of the encoder
    leaves the notifier and nothing is sent or printed. Once the form is
    encoded the notifier returns a boolean after exactly one request and
    never raises. It returns true exactly when the response decodes to a
    JSON object with a truthy "ok", and then prints the success line. In
    every other case it returns false and prints one diagnostic to the error
    stream: "❌ Failed to send Telegram message: " and the text of the
    exception when the transport raised, when the body is not JSON, or when
    the decoded value is not an object; "❌ Telegram API error: " and the
    "description" of the response (or "Unknown error") when the object has
    no truthy "ok". *)
Theorem notifier_result (rt : runtime) (urlopen : request -> res string)
    (bot_token chat_id message : string) (thread_id : option string)
    (io : io_state) :
  let req := build_request rt bot_token chat_id message thread_id in
  let r :=
    send_telegram_message rt urlopen bot_token chat_id message thread_id io in
  (requests (snd r) = requests io \/ requests (snd r) = requests io ++ [req])
  /\ (forall e,
        urlencode rt (req_data req) = Raise e -> r = (Uncaught e, io))
  /\ (forall data_encoded,
        urlencode rt (req_data req) = Ok data_encoded ->
        exists success io',
          r = (Done success, io')
          /\ requests io' = requests io ++ [req]
          /\ (success = true <->
              exists body d ok,
                urlopen req = Ok body /\ json_loads rt body = Ok (PDict d)
                /\ dict_get "ok" d = Some ok /\ truthy ok = true)
          /\ (success = true ->
              stdout io'
              = stdout io ++ ["✅ Telegram message sent successfully"]
              /\ stderr io' = stderr io)
          /\ (success = false ->
              stdout io' = stdout io
              /\ ((exists e,
                     stderr io'
                     = stderr io
                       ++ ["❌ Failed to send Telegram message: "
                           +:+ exn_text e]
                     /\ (urlopen req = Raise e
                         \/ (exists body,
                               urlopen req = Ok body
                               /\ json_loads rt body = Raise e)
                         \/ (exists body v,
                               urlopen req = Ok body
                               /\ json_loads rt body = Ok v
                               /\ field v "ok" = None
                               /\ (forall d, v <> PDict d)
                               /\ e = no_attribute v "get")))
                  \/ (exists body d,
                        urlopen req = Ok body
                        /\ json_loads rt body = Ok (PDict d)
                        /\ stderr io'
                           = stderr io
                             ++ ["❌ Telegram API error: "
                                 +:+ fmt rt
                                       (from_option id (PStr "Unknown error")
                                          (dict_get "description" d))])))).
Proof.
  intros req r. subst r. rewrite send_cases. fold req.
  destruct (urlencode rt (req_data req)) as [encoded|e0] eqn:Hencoded.
  2:{ split; [left; reflexivity|]. split; [|discriminate].
      intros e [= <-]. reflexivity. }
  split; [right|split; [discriminate|intros ? _]].
  { destruct (urlopen req) as [body|e]; [|reflexivity].
    destruct (json_loads rt body) as [v|e]; [|reflexivity].
    destruct v as [| | | | | |d]; try reflexivity.
    destruct (truthy (from_option id PNone (dict_get "ok" d)));
      reflexivity. }
  destruct (urlopen req) as [body|e] eqn:Hnet.
  2:{ eexists _, _. split; [reflexivity|]. split; [reflexivity|].
      split; [|split]; [split|..]; try discriminate.
      - intros (? & ? & ? & ? & _); discriminate.
      - intros _. split; [reflexivity|]. left. exists e. split; [reflexivity|].
        left. reflexivity. }
  destruct (json_loads rt body) as [v|e] eqn:Hjson.
  2:{ eexists _, _. split; [reflexivity|]. split; [reflexivity|].
      split; [|split]; [split|..]; try discriminate.
      - intros (? & ? & ? & [= <-] & H & _). congruence.
      - intros _. split; [reflexivity|]. left. exists e. split; [reflexivity|].
        right. left. exists body. split; [reflexivity | assumption]. }
  destruct v as [| | | | | |d].
  1-6: (eexists _, _; split; [reflexivity|]; split; [reflexivity|];
        split; [|split]; [split|..]; try discriminate;
        [ intros (? & ? & ? & [= <-] & H & _); congruence
        | intros _; split; [reflexivity|]; left; eexists;
          split; [reflexivity|]; right; right; eexists body, _;
          repeat split; try reflexivity; try assumption; discriminate ]).
  destruct (dict_get "ok" d) as [ok|] eqn:Hok; cbn [from_option id].
  - destruct (truthy ok) eqn:Htruthy.
    + eexists _, _. split; [reflexivity|]. split; [reflexivity|].
      split; [|split]; [split|..]; try discriminate.
      * intros _. exists body, d, ok. repeat split; assumption.
      * reflexivity.
      * intros _. split; reflexivity.
    + eexists _, _. split; [reflexivity|]. split; [reflexivity|].
      split; [|split]; [split|..]; try discriminate.
      * intros (? & ? & ? & [= <-] & H & H1 & H2). congruence.
      * intros _. split; [reflexivity|]. right. exists body, d.
        repeat split; assumption.
  - eexists _, _. split; [reflexivity|]. split; [reflexivity|].
    split; [|split]; [split|..]; try discriminate.
    + intros (? & ? & ? & [= <-] & H & H1 & H2). congruence.
    + intros _. split; [reflexivity|]. right. exists body, d.
      repeat split; assumption.
Qed.

Lemma notifier_result_witness :
  let down := fun _ : request =>
    Raise (A := string) (Exn (OtherException "URLError") "timed out") in
  let lone := String "237" (String "160" (String "128" EmptyString)) in
  urlencode cpython
    (req_data (build_request cpython "token" "42" "hello" None))
  = Ok "chat_id=42&text=hello&parse_mode=HTML"
  /\ send_telegram_message cpython down "token" "42" lone None io_init
     = (Uncaught surrogates_not_allowed, io_init)
  /\ exists io',
       send_telegram_message cpython down "token" "42" "hello" None io_init
       = (Done false, io')
       /\ length (requests io') = 1%nat
       /\ stderr io' = ["❌ Failed to send Telegram message: timed out"].
Proof.
  intros down lone. split; [reflexivity|]. split.
  { apply (proj1 (proj2 (notifier_result cpython down "token" "42" lone None
                           io_init))).
    reflexivity. }
  destruct (proj2 (proj2 (notifier_result cpython down "token" "42" "hello"
                            None io_init))
              "chat_id=42&text=hello&parse_mode=HTML" eq_refl)
    as (success & io' & Hsend & Hreq & Hiff & _ & Hfail).
  exists io'. destruct success.
  - exfalso. destruct (proj1 Hiff eq_refl) as (? & ? & ? & H & _).
    discriminate H.
  - split; [exact Hsend|]. split; [rewrite Hreq; reflexivity|].
    destruct (Hfail eq_refl) as [_ [(e & Herr & Hwhy) | (? & ? & H & _)]];
      [|discriminate H].
    rewrite Herr.
    destruct Hwhy as [H | [(? & H & _) | (? & ? & H & _)]];
      try discriminate H.
    injection H as <-. reflexivity.
Defined.

(** C9. The form the notifier encodes and sends carries the thread
    identifier when one is provided (a non-empty string): as the integer
    [int()] gives when the string parses as one, as the string itself
    otherwise, and the encoded body ends with the field
    [message_thread_id], the integer written by [str()]. With no identifier
    (none, or an empty one) the field is not in the form, and the body has
    the three other fields only. The request with this form is the one sent
    whenever the form can be encoded. *)
Theorem thread_id_field (rt : runtime) (urlopen : request -> res string)
    (bot_token chat_id message : string) (thread_id : option string)
    (io : io_state) :
  let req := build_request rt bot_token chat_id message thread_id in
  let io' :=
    snd (send_telegram_message rt urlopen bot_token chat_id message thread_id
           io) in
  (forall data_encoded,
     urlencode rt (req_data req) = Ok data_encoded ->
     requests io' = requests io ++ [req])
  /\ (forall e,
        urlencode rt (req_data req) = Raise e -> requests io' = requests io)
  /\ (forall t,
        thread_id = Some t -> t <> EmptyString ->
        (forall n, py_int rt t = Some n ->
                   dict_get "message_thread_id" (req_data req)
                   = Some (PInt n))
        /\ (py_int rt t = None ->
            dict_get "message_thread_id" (req_data req) = Some (PStr t)))
  /\ (thread_id = None \/ thread_id = Some EmptyString ->
      dict_get "message_thread_id" (req_data req) = None)
  /\ (forall data_encoded,
        urlencode rt (req_data req) = Ok data_encoded ->
        exists c m,
          quote_plus chat_id = Ok c /\ quote_plus message = Ok m
          /\ (thread_id = None \/ thread_id = Some EmptyString ->
              data_encoded
              = "chat_id=" +:+ c +:+ "&text=" +:+ m +:+ "&parse_mode=HTML")
          /\ (forall t,
                thread_id = Some t -> t <> EmptyString ->
                exists value,
                  quote_plus
                    (match py_int rt t with
                     | Some n => py_str rt (PInt n)
                     | None => t
                     end)
                  = Ok value
                  /\ data_encoded
                     = "chat_id=" +:+ c +:+ "&text=" +:+ m
                       +:+ "&parse_mode=HTML&message_thread_id=" +:+ value)).
Proof.
  intros req io'. subst io'.
  pose proof (send_outcome rt urlopen bot_token chat_id message thread_id io)
    as Hsend. cbv zeta in Hsend. fold req in Hsend.
  split; [|split; [|split; [|split]]].
  - intros data_encoded Hencoded. rewrite Hencoded in Hsend.
    destruct Hsend as (io' & -> & Hreq). exact Hreq.
  - intros e Hencoded. rewrite Hencoded in Hsend. rewrite Hsend.
    reflexivity.
  - intros t -> Ht. subst req. unfold build_request.
    rewrite (str_truthy_some t Ht). cbn [default from_option id].
    split.
    + intros n ->. reflexivity.
    + intros ->. reflexivity.
  - intros [-> | ->]; reflexivity.
  - clear Hsend. intros data_encoded Hencoded. subst req.
    unfold build_request in Hencoded. cbn [req_data] in Hencoded.
    destruct (str_truthy thread_id) eqn:Htruthy.
    + destruct thread_id as [[|a t]|]; try discriminate Htruthy.
      cbn [default from_option id] in Hencoded.
      assert (exists v,
                urlencode rt
                  ([("chat_id", PStr chat_id); ("text", PStr message);
                    ("parse_mode", PStr "HTML")]
                   ++ [("message_thread_id", v)]) = Ok data_encoded
                /\ fmt rt v
                   = match py_int rt (String a t) with
                     | Some n => py_str rt (PInt n)
                     | None => String a t
                     end) as (v & Hv & Hfmt).
      { destruct (py_int rt (String a t)); eexists; split;
          first [exact Hencoded | reflexivity]. }
      apply urlencode_form in Hv as (c & m & rest & Hc & Hm & Hrest & ->).
      exists c, m. split; [exact Hc|]. split; [exact Hm|]. split.
      * intros [H | H]; discriminate H.
      * intros t' [= <-] _. cbn [urlencode_items] in Hrest.
        change (quote_plus "message_thread_id")
          with (Ok (A := string) "message_thread_id") in Hrest.
        rewrite res_bind_ok, Hfmt in Hrest.
        match type of Hrest with
        | context [quote_plus ?x] =>
            destruct (quote_plus x) as [value|e]; [|discriminate Hrest]
        end.
        rewrite !res_bind_ok in Hrest. injection Hrest as <-.
        exists value. split; [reflexivity|].
        cbn [join]. rewrite !str_app_assoc. reflexivity.
    + assert (urlencode rt
                ([("chat_id", PStr chat_id); ("text", PStr message);
                  ("parse_mode", PStr "HTML")] ++ []) = Ok data_encoded)
        as Hv by exact Hencoded.
      apply urlencode_form in Hv as (c & m & rest & Hc & Hm & Hrest & ->).
      injection Hrest as <-.
      exists c, m. split; [exact Hc|]. split; [exact Hm|]. split.
      * intros _. cbn [join]. rewrite !str_app_assoc. reflexivity.
      * intros t -> Ht. destruct t; [congruence | discriminate Htruthy].
Qed.

Lemma thread_id_field_witness :
  dict_get "message_thread_id"
    (req_data (build_request cpython "token" "42" "a <b>" (Some " 17 ")))
  = Some (PInt 17)
  /\ dict_get "message_thread_id"
       (req_data (build_request cpython "token" "42" "a <b>" (Some "general")))
     = Some (PStr "general")
  /\ dict_get "message_thread_id"
       (req_data (build_request cpython "token" "42" "a <b>" None))
     = None
  /\ requests
       (snd (send_telegram_message cpython (fun _ => Ok EmptyString)
               "token" "42" "a <b>" (Some " 17 ") io_init))
     = [build_request cpython "token" "42" "a <b>" (Some " 17 ")]
  /\ urlencode cpython
       (req_data (build_request cpython "token" "42" "a <b>" (Some " 17 ")))
     = Ok "chat_id=42&text=a+%3Cb%3E&parse_mode=HTML&message_thread_id=17"
  /\ urlencode cpython
       (req_data (build_request cpython "token" "42" "a <b>" (Some "t 1")))
     = Ok "chat_id=42&text=a+%3Cb%3E&parse_mode=HTML&message_thread_id=t+1"
  /\ urlencode cpython
       (req_data (build_request cpython "token" "42" "a <b>" None))
     = Ok "chat_id=42&text=a+%3Cb%3E&parse_mode=HTML".
Proof.
  split; [|split; [|split; [|split; [|split; [|split]]]]].
  - apply (proj1 (proj2 (proj2 (thread_id_field cpython
                                  (fun _ => Ok EmptyString)
                                  "token" "42" "a <b>" (Some " 17 ")
                                  io_init)))
             " 17 " eq_refl);
      [discriminate | reflexivity].
  - apply (proj1 (proj2 (proj2 (thread_id_field cpython
                                  (fun _ => Ok EmptyString)
                                  "token" "42" "a <b>" (Some "general")
                                  io_init)))
             "general" eq_refl);
      [discriminate | reflexivity].
  - apply (proj1 (proj2 (proj2 (proj2 (thread_id_field cpython
                                         (fun _ => Ok EmptyString)
                                         "token" "42" "a <b>" None
                                         io_init))))).
    left. reflexivity.
  - apply (proj1 (thread_id_field cpython (fun _ => Ok EmptyString)
                    "token" "42" "a <b>" (Some " 17 ") io_init)
             "chat_id=42&text=a+%3Cb%3E&parse_mode=HTML&message_thread_id=17").
    reflexivity.
  - destruct (proj2 (proj2 (proj2 (proj2
                (thread_id_field cpython (fun _ => Ok EmptyString)
                   "token" "42" "a <b>" (Some " 17 ") io_init))))
                "chat_id=42&text=a+%3Cb%3E&parse_mode=HTML&message_thread_id=17"
                eq_refl)
      as (c & m & Hc & Hm & _ & Hsome).
    destruct (Hsome " 17 " eq_refl ltac:(discriminate))
      as (value & Hvalue & _).
    injection Hc as <-. injection Hm as <-. injection Hvalue as <-.
    reflexivity.
  - reflexivity.
  - reflexivity.
Defined.

(** ** The whole run *)

(** [main], by the reads of the common variables, the outcome of the
    formatter branch and the verdict of the notifier. *)
Lemma main_cases (rt : runtime) (urlopen : request -> res string)
    (env : gmap string string) (io : io_state) :
  main rt urlopen env io
  = if negb (present env "TELEGRAM_BOT_TOKEN") then
      (Exited 1, log_err (missing_diagnostic "TELEGRAM_BOT_TOKEN") io)
    else if negb (present env "TELEGRAM_CHAT_ID") then
      (Exited 1, log_err (missing_diagnostic "TELEGRAM_CHAT_ID") io)
    else if negb (present env "GITHUB_REPOSITORY") then
      (Exited 1, log_err (missing_diagnostic "GITHUB_REPOSITORY") io)
    else if negb (present env "GITHUB_ACTOR") then
      (Exited 1, log_err (missing_diagnostic "GITHUB_ACTOR") io)
    else
      match
        select_message rt env
          (default EmptyString (env !! "GITHUB_REPOSITORY"))
          (default EmptyString (env !! "GITHUB_ACTOR")) io
      with
      | (Done message, io1) =>
          match
            send_telegram_message rt urlopen
              (default EmptyString (env !! "TELEGRAM_BOT_TOKEN"))
              (default EmptyString (env !! "TELEGRAM_CHAT_ID"))
              message (env !! "TELEGRAM_THREAD_ID") io1
          with
          | (Done true, io2) => (Done tt, io2)
          | (Done false, io2) => (Exited 1, io2)
          | (Exited c, io2) => (Exited c, io2)
          | (Uncaught e, io2) => (Uncaught e, io2)
          end
      | (Exited c, io1) => (Exited c, io1)
      | (Uncaught e, io1) => (Uncaught e, io1)
      end.
Proof.
  unfold main.
  rewrite bind_required. destruct (present env "TELEGRAM_BOT_TOKEN");
    [|reflexivity].
  rewrite bind_required. destruct (present env "TELEGRAM_CHAT_ID");
    [|reflexivity].
  rewrite bind_optional.
  rewrite bind_required. destruct (present env "GITHUB_REPOSITORY");
    [|reflexivity].
  rewrite bind_required. destruct (present env "GITHUB_ACTOR");
    [|reflexivity].
  cbn [negb]. rewrite proc_bind_unfold.
  destruct (select_message rt env _ _ io) as [[message|c|e] io1];
    try reflexivity.
  rewrite proc_bind_unfold.
  destruct (send_telegram_message rt urlopen _ _ message _ io1)
    as [[[|]|c|e] io2]; reflexivity.
Qed.

(** A run either ends with exit code 1 before any request (a variable is
    missing, no event kind matches, the push formatter raises, or the form
    of the request cannot be encoded), or has all the variables it requires,
    sends one request, and ends with the exit code the response decides. *)
Lemma main_outcome (rt : runtime) (urlopen : request -> res string)
    (env : gmap string string) :
  let r := run_main rt urlopen env in
  (fst r = 1 /\ requests (snd r) = []
   /\ (forallb (present env) common_required = false
       \/ classify env = None
       \/ (exists k,
             classify env = Some k
             /\ (forallb (present env) (kind_required k) = false
                 \/ k = Push
                 \/ (exists data e, urlencode rt data = Raise e)))))
  \/ (forallb (present env) common_required = true
      /\ exists k req,
           classify env = Some k
           /\ forallb (present env) (kind_required k) = true
           /\ requests (snd r) = [req]
           /\ fst r = if response_ok rt (urlopen req) then 0 else 1).
Proof.
  unfold run_main. rewrite main_cases. cbn [common_required forallb].
  destruct (present env "TELEGRAM_BOT_TOKEN"); cbn [negb andb];
    [|left; repeat split; left; reflexivity].
  destruct (present env "TELEGRAM_CHAT_ID"); cbn [negb andb];
    [|left; repeat split; left; reflexivity].
  destruct (present env "GITHUB_REPOSITORY"); cbn [negb andb];
    [|left; repeat split; left; reflexivity].
  destruct (present env "GITHUB_ACTOR"); cbn [negb andb];
    [|left; repeat split; left; reflexivity].
  rewrite select_message_classify.
  destruct (classify env) as [k|] eqn:Hk;
    [|left; repeat split; right; left; reflexivity].
  destruct (event_message_outcome rt env
              (default EmptyString (env !! "GITHUB_REPOSITORY"))
              (default EmptyString (env !! "GITHUB_ACTOR")) k io_init)
    as [[Hall [[message ->] | (e & -> & ->)]] | (name & Hin & Hname & ->)].
  - pose proof (send_outcome rt urlopen
                  (default EmptyString (env !! "TELEGRAM_BOT_TOKEN"))
                  (default EmptyString (env !! "TELEGRAM_CHAT_ID"))
                  message (env !! "TELEGRAM_THREAD_ID") io_init) as Hsend.
    cbv zeta in Hsend.
    destruct (urlencode rt _) as [data_encoded|e] eqn:Hencoded.
    + right. split; [reflexivity|]. destruct Hsend as (io' & -> & Hreq).
      exists k, (build_request rt
                   (default EmptyString (env !! "TELEGRAM_BOT_TOKEN"))
                   (default EmptyString (env !! "TELEGRAM_CHAT_ID"))
                   message (env !! "TELEGRAM_THREAD_ID")).
      split; [reflexivity|]. split; [exact Hall|].
      destruct (response_ok rt _); cbn [fst snd exit_code];
        (split; [exact Hreq | reflexivity]).
    + left. rewrite Hsend. repeat split. right. right. exists k.
      split; [reflexivity|]. right. right. eexists _, e. exact Hencoded.
  - left. repeat split. right. right. exists Push. split; [reflexivity|].
    right. left. reflexivity.
  - left. repeat split. right. right. exists k. split; [reflexivity|].
    left. apply not_true_is_false. intros Hall.
    rewrite forallb_forall in Hall. apply Hall in Hin. congruence.
Qed.

(** ** C2 and C8 *)

(** C2. For every environment the [if]/[elif] chain of [main] runs the
    branch of exactly one event kind, the one [classify] gives by the
    precedence pull request, issue, push, workflow run (a hint equal to the
    kind's name, or the kind's variable present), first match first. When
    no kind matches, the run ends with exit code 1 and sends no request, and
    its diagnostic is the unknown-event one once the common variables have
    been read. *)
Theorem event_kind_by_precedence (rt : runtime)
    (urlopen : request -> res string) (env : gmap string string) :
  (forall repo actor io,
     select_message rt env repo actor io
     = match classify env with
       | Some k => event_message rt env repo actor k io
       | None => (Exited 1, log_err unknown_event_diagnostic io)
       end)
  /\ (classify env = None ->
      fst (run_main rt urlopen env) = 1
      /\ requests (snd (run_main rt urlopen env)) = [])
  /\ (classify env = None ->
      forallb (present env) common_required = true ->
      main rt urlopen env io_init
      = (Exited 1, log_err unknown_event_diagnostic io_init)).
Proof.
  split; [|split].
  - intros. apply select_message_classify.
  - intros Hnone.
    destruct (main_outcome rt urlopen env)
      as [(Hcode & Hreq & _) | (_ & k & req & Hk & _)].
    + split; assumption.
    + congruence.
  - intros Hnone Hcommon. rewrite main_cases.
    cbn [common_required forallb] in Hcommon.
    repeat (apply andb_prop in Hcommon as [? Hcommon]).
    repeat match goal with
           | H : present env ?n = true |- _ => rewrite H; clear H
           end.
    cbn [negb]. rewrite select_message_classify, Hnone. reflexivity.
Qed.

Lemma event_kind_by_precedence_witness :
  let common : list (string * string) :=
    [("TELEGRAM_BOT_TOKEN", "token"); ("TELEGRAM_CHAT_ID", "42");
     ("GITHUB_REPOSITORY", "octo/repo"); ("GITHUB_ACTOR", "bob")] in
  let env : gmap string string := list_to_map common in
  let env' : gmap string string :=
    list_to_map (("EVENT_TYPE", "push") :: ("PR_NUMBER", "7") :: common) in
  classify env = None
  /\ main cpython (fun _ => Ok EmptyString) env io_init
     = (Exited 1, log_err unknown_event_diagnostic io_init)
  /\ classify env' = Some PullRequest
  /\ select_message cpython env' "octo/repo" "bob" io_init
     = pull_request_event env' "octo/repo" "bob" io_init.
Proof.
  intros common env env'. split; [reflexivity|]. split.
  - apply (proj2 (proj2 (event_kind_by_precedence cpython
                           (fun _ => Ok EmptyString) env)));
      reflexivity.
  - split; [reflexivity|].
    rewrite (proj1 (event_kind_by_precedence cpython
                      (fun _ => Ok EmptyString) env')).
    reflexivity.
Defined.

(** C8. The exit code of a run is 0 or 1. It is 0 exactly when one request
    was sent and its response is a JSON object with a truthy "ok". When a
    variable required by every run, or by the branch of the event kind, is
    missing, and when no event kind matches, the code is 1 and no request
    was sent; when the request was sent and the delivery failed, the code
    is 1. *)
Theorem exit_code_by_delivery (rt : runtime)
    (urlopen : request -> res string) (env : gmap string string) :
  let code := fst (run_main rt urlopen env) in
  let io := snd (run_main rt urlopen env) in
  (code = 0 \/ code = 1)
  /\ (code = 0 <->
      exists req, requests io = [req] /\ response_ok rt (urlopen req) = true)
  /\ ((exists name, In name common_required /\ present env name = false) ->
      code = 1 /\ requests io = [])
  /\ (forall k name,
        classify env = Some k -> In name (kind_required k) ->
        present env name = false ->
        code = 1 /\ requests io = [])
  /\ (classify env = None -> code = 1 /\ requests io = [])
  /\ (forall req,
        requests io = [req] -> response_ok rt (urlopen req) = false ->
        code = 1).
Proof.
  intros code io. subst code io.
  destruct (main_outcome rt urlopen env)
    as [(Hcode & Hreq & _) | (Hcommon & k & req & Hk & Hkind & Hreq & Hcode)].
  - rewrite Hcode, Hreq. repeat split; try (intros; discriminate); auto.
    intros (req & H & _). discriminate H.
  - rewrite Hcode, Hreq. split; [|split; [|split; [|split; [|split]]]].
    + destruct (response_ok rt (urlopen req)); auto.
    + split.
      * intros H. exists req. split; [reflexivity|].
        destruct (response_ok rt (urlopen req)); [reflexivity|discriminate].
      * intros (req' & [= <-] & ->). reflexivity.
    + intros (name & Hin & Hname). exfalso.
      rewrite forallb_forall in Hcommon. apply Hcommon in Hin. congruence.
    + intros k' name Hk' Hin Hname. exfalso.
      assert (k' = k) as -> by congruence.
      rewrite forallb_forall in Hkind. apply Hkind in Hin. congruence.
    + intros Hnone. congruence.
    + intros req' [= <-] ->. reflexivity.
Qed.

Lemma exit_code_by_delivery_witness :
  let env : gmap string string :=
    list_to_map
      [("TELEGRAM_BOT_TOKEN", "token"); ("TELEGRAM_CHAT_ID", "42");
       ("GITHUB_REPOSITORY", "octo/repo"); ("GITHUB_ACTOR", "bob");
       ("ISSUE_NUMBER", "3"); ("ISSUE_TITLE", "crash");
       ("ISSUE_ACTION", "opened")] in
  let accepted := fun _ : request => Ok (json_text "{'ok':true}") in
  classify env = Some Issue
  /\ present env "ISSUE_URL" = false
  /\ fst (run_main cpython accepted env) = 1
  /\ requests (snd (run_main cpython accepted env)) = []
  /\ fst (run_main cpython accepted (<["ISSUE_URL" := "https://x/3"]> env)) = 0.
Proof.
  intros env accepted. split; [reflexivity|]. split; [reflexivity|].
  split; [|split].
  - apply (proj1 (proj2 (proj2 (proj2 (exit_code_by_delivery cpython accepted
                                         env))))
             Issue "ISSUE_URL"); [reflexivity | simpl; tauto | reflexivity].
  - apply (proj1 (proj2 (proj2 (proj2 (exit_code_by_delivery cpython accepted
                                         env))))
             Issue "ISSUE_URL"); [reflexivity | simpl; tauto | reflexivity].
  - apply (proj1 (proj2 (exit_code_by_delivery cpython accepted
                           (<["ISSUE_URL" := "https://x/3"]> env)))).
    eexists. split; reflexivity.
Defined.

(** ** Empty values *)

Section SamePresent.

Variables env1 env2 : gmap string string.
Hypothesis Hsame : same_present env1 env2.

(** A use of a variable that cannot tell the empty value from no value
    gives the same in both environments. *)
Lemma same_present_blind {B : Type} (f : option string -> B) (name : string) :
  f (Some EmptyString) = f None -> f (env1 !! name) = f (env2 !! name).
Proof.
  intros Hf. specialize (Hsame name). unfold nonempty in Hsame.
  destruct (env1 !! name) as [[|c1 s1]|], (env2 !! name) as [[|c2 s2]|];
    cbn in Hsame; congruence.
Qed.

Lemma same_present_present (name : string) :
  present env1 name = present env2 name.
Proof. apply (same_present_blind str_truthy). reflexivity. Qed.

Lemma same_present_default (name : string) :
  default EmptyString (env1 !! name) = default EmptyString (env2 !! name).
Proof. apply (same_present_blind (default EmptyString)). reflexivity. Qed.

Lemma same_present_eqb (name lit : string) :
  lit <> EmptyString ->
  opt_eqb (env1 !! name) lit = opt_eqb (env2 !! name) lit.
Proof.
  intros Hlit. apply (same_present_blind (fun v => opt_eqb v lit)).
  destruct lit; [congruence | reflexivity].
Qed.

Lemma same_present_or_else (name lit : string) :
  or_else (env1 !! name) lit = or_else (env2 !! name) lit.
Proof.
  apply (same_present_blind (fun v => or_else v lit)). reflexivity.
Qed.

(** Rewrites every read of [env1] into the read of [env2]. *)
Ltac to_env2 :=
  repeat (first [rewrite bind_required | rewrite bind_optional]; cbn beta);
  rewrite ?same_present_present, ?same_present_default,
    ?same_present_or_else,
    ?(fun name => same_present_eqb name "true" ltac:(discriminate)).

Lemma same_present_classify : classify env1 = classify env2.
Proof.
  unfold classify, hint.
  rewrite !same_present_present.
  rewrite (same_present_eqb "EVENT_TYPE" "pull_request") by discriminate.
  rewrite (same_present_eqb "EVENT_TYPE" "issues") by discriminate.
  rewrite (same_present_eqb "EVENT_TYPE" "push") by discriminate.
  rewrite (same_present_eqb "EVENT_TYPE" "workflow_run") by discriminate.
  reflexivity.
Qed.

Lemma same_present_event (rt : runtime) (repo actor : string)
    (k : event_kind) (io : io_state) :
  event_message rt env1 repo actor k io
  = event_message rt env2 repo actor k io.
Proof.
  destruct k; cbn [event_message].
  - unfold pull_request_event. to_env2. reflexivity.
  - unfold issue_event. to_env2. reflexivity.
  - unfold push_event. to_env2.
    rewrite (same_present_blind
               (format_push_message rt repo actor
                  (default EmptyString (env2 !! "PUSH_BRANCH")))
               "PUSH_COMMITS" eq_refl).
    reflexivity.
  - unfold workflow_run_event. to_env2. reflexivity.
Qed.

Lemma same_present_main (rt : runtime) (urlopen : request -> res string)
    (io : io_state) :
  main rt urlopen env1 io = main rt urlopen env2 io.
Proof.
  rewrite !main_cases, !select_message_classify.
  rewrite !same_present_present, !same_present_default,
    same_present_classify.
  destruct (classify env2) as [k|]; [|reflexivity].
  rewrite same_present_event.
  destruct (event_message rt env2 _ _ k io) as [[message|c|e] io1];
    try reflexivity.
  rewrite (same_present_blind
             (fun t =>
                send_telegram_message rt urlopen
                  (default EmptyString (env2 !! "TELEGRAM_BOT_TOKEN"))
                  (default EmptyString (env2 !! "TELEGRAM_CHAT_ID"))
                  message t io1)
             "TELEGRAM_THREAD_ID" eq_refl).
  reflexivity.
Qed.

End SamePresent.

Lemma same_present_empty_absent (env : gmap string string) (name : string) :
  same_present (<[name := EmptyString]> env) (delete name env).
Proof.
  intros n. destruct (decide (name = n)) as [->|Hne].
  - now rewrite lookup_insert_eq, lookup_delete_eq.
  - now rewrite lookup_insert_ne, lookup_delete_ne.
Qed.

(** ** C10 *)

(** C10. A variable set to the empty string is read as an absent one. A
    required read of it ends the process with exit code 1 and the
    diagnostic of the missing variable, as for the absent variable; the
    variable does not count as present and an empty event-type hint equals
    no kind's name, so the classifier gives the same kind as without the
    variable; and the whole run is the same as without the variable. *)
Theorem empty_value_is_absent (rt : runtime)
    (urlopen : request -> res string) (env : gmap string string)
    (name : string) (io : io_state) :
  get_env_var (<[name := EmptyString]> env) name true io
  = (Exited 1, log_err (missing_diagnostic name) io)
  /\ get_env_var (delete name env) name true io
     = (Exited 1, log_err (missing_diagnostic name) io)
  /\ present (<[name := EmptyString]> env) name = false
  /\ (forall lit, lit <> EmptyString ->
      hint (<["EVENT_TYPE" := EmptyString]> env) lit = false)
  /\ classify (<[name := EmptyString]> env) = classify (delete name env)
  /\ main rt urlopen (<[name := EmptyString]> env) io
     = main rt urlopen (delete name env) io.
Proof.
  split; [|split; [|split; [|split; [|split]]]].
  - unfold get_env_var. now rewrite lookup_insert_eq.
  - unfold get_env_var. now rewrite lookup_delete_eq.
  - unfold present. now rewrite lookup_insert_eq.
  - intros lit Hlit. unfold hint. rewrite lookup_insert_eq.
    destruct lit; [congruence | reflexivity].
  - apply same_present_classify, same_present_empty_absent.
  - apply same_present_main, same_present_empty_absent.
Qed.

Lemma empty_value_is_absent_witness :
  let env : gmap string string :=
    list_to_map
      [("TELEGRAM_BOT_TOKEN", "token"); ("TELEGRAM_CHAT_ID", "42");
       ("GITHUB_REPOSITORY", "octo/repo"); ("GITHUB_ACTOR", "bob");
       ("PUSH_BRANCH", "main")] in
  hint (<["EVENT_TYPE" := EmptyString]> env) "push" = false
  /\ classify (<["PR_NUMBER" := EmptyString]> env) = Some Push
  /\ classify (<["PUSH_BRANCH" := EmptyString]> env) = None.
Proof.
  intros env. split; [|split].
  - apply (proj1 (proj2 (proj2 (proj2
             (empty_value_is_absent cpython (fun _ => Ok EmptyString) env
                "EVENT_TYPE" io_init))))).
    discriminate.
  - rewrite (proj1 (proj2 (proj2 (proj2 (proj2
               (empty_value_is_absent cpython (fun _ => Ok EmptyString) env
                  "PR_NUMBER" io_init)))))).
    reflexivity.
  - rewrite (proj1 (proj2 (proj2 (proj2 (proj2
               (empty_value_is_absent cpython (fun _ => Ok EmptyString) env
                  "PUSH_BRANCH" io_init)))))).
    reflexivity.
Defined.

(** ** Worked examples *)

(** The commit of the specification's example: one line, the short SHA
    linking to the commit, the message on one line, the author's name. *)
Example push_one_commit :
  format_push_message cpython "octo/repo" "bob" "main"
    (Some (json_text
             "[{'id':'abcdef1234567','message':'fix\nbug','author':{'name':'alice'}}]"))
  = Ok ("bob just pushed to branch main of octo/repo:" +:+ newline
          +:+ "- <a href=" +:+ dquote
          +:+ "https://github.com/octo/repo/commit/abcdef1234567" +:+ dquote
          +:+ ">abcdef1</a> — fix bug (by alice)").
Proof. reflexivity. Qed.

(** A merged pull request, delivered: one request with the three form
    fields and the thread identifier as an integer, the success line, exit
    code 0. *)
Example merged_pull_request_delivered :
  let env : gmap string string :=
    list_to_map
      [("TELEGRAM_BOT_TOKEN", "123:abc"); ("TELEGRAM_CHAT_ID", "-100");
       ("TELEGRAM_THREAD_ID", "5"); ("GITHUB_REPOSITORY", "octo/repo");
       ("GITHUB_ACTOR", "bob"); ("EVENT_TYPE", "pull_request");
       ("PR_NUMBER", "12"); ("PR_TITLE", "Fix <div> & more");
       ("PR_URL", "https://github.com/octo/repo/pull/12");
       ("BASE_REF", "main"); ("HEAD_REF", "fix/div");
       ("PR_ACTION", "closed"); ("PR_MERGED", "true")] in
  run_main cpython (fun _ => Ok (json_text "{'ok':true,'result':{}}")) env
  = (0,
     IO [Request "https://api.telegram.org/bot123:abc/sendMessage"
           [("chat_id", PStr "-100");
            ("text",
             PStr ("<b>PR merged:</b> <a href=" +:+ dquote
                     +:+ "https://github.com/octo/repo/pull/12" +:+ dquote
                     +:+ ">#12</a> — Fix &lt;div&gt; &amp; more" +:+ newline
                     +:+ "Repo: octo/repo" +:+ newline
                     +:+ "By: bob" +:+ newline
                     +:+ "fix/div → main"));
            ("parse_mode", PStr "HTML");
            ("message_thread_id", PInt 5)]
           "POST"
           [("Content-Type", "application/x-www-form-urlencoded")]]
        [sent_line] []).
Proof. reflexivity. Qed.

(** A response that reports a failure: the description goes to the error
    stream and the exit code is 1. *)
Example delivery_refused :
  let env : gmap string string :=
    list_to_map
      [("TELEGRAM_BOT_TOKEN", "123:abc"); ("TELEGRAM_CHAT_ID", "-100");
       ("GITHUB_REPOSITORY", "octo/repo"); ("GITHUB_ACTOR", "bob");
       ("WORKFLOW_NAME", "CI"); ("WORKFLOW_CONCLUSION", "failure")] in
  let refused := fun _ : request =>
    Ok (json_text "{'ok':false,'description':'chat not found'}") in
  fst (run_main cpython refused env) = 1
  /\ stderr (snd (run_main cpython refused env))
     = [api_error_line "chat not found"]
  /\ length (requests (snd (run_main cpython refused env))) = 1%nat.
Proof. repeat split. Qed.

(** The short id is made of the first 7 characters of the id, whatever the
    number of bytes they take. *)
Example short_id_by_characters :
  commit_line cpython "octo/repo" (PDict [("id", PStr "ééééééééé")])
  = Ok ("- <a href=" +:+ dquote
          +:+ "https://github.com/octo/repo/commit/ééééééééé" +:+ dquote
          +:+ ">ééééééé</a> —  (by unknown)").
Proof. reflexivity. Qed.

(** The form of a request, encoded: a space as a plus sign, every byte that
    is neither a letter, a digit nor one of [_.-~] as a percent sign and
    two digits. *)
Example form_encoded :
  urlencode cpython
    (req_data
       (build_request cpython "123:abc" "-100"
          ("<b>x</b> y&z/é" +:+ newline +:+ "n") (Some "12")))
  = Ok ("chat_id=-100&text=%3Cb%3Ex%3C%2Fb%3E+y%26z%2F%C3%A9%0An"
          +:+ "&parse_mode=HTML&message_thread_id=12").
Proof. reflexivity. Qed.

(** A commit message with a lone surrogate, written as an escape of JSON:
    the message is formatted, the form cannot be encoded, and the run ends
    on the exception with nothing sent and nothing printed. *)
Example lone_surrogate_not_sent :
  let env : gmap string string :=
    list_to_map
      [("TELEGRAM_BOT_TOKEN", "123:abc"); ("TELEGRAM_CHAT_ID", "-100");
       ("GITHUB_REPOSITORY", "octo/repo"); ("GITHUB_ACTOR", "bob");
       ("PUSH_BRANCH", "main");
       ("PUSH_COMMITS",
        json_text "[{'id':'abcdef1234567','message':'x\ud800'}]")] in
  let accepted := fun _ : request => Ok (json_text "{'ok':true}") in
  main cpython accepted env io_init
  = (Uncaught surrogates_not_allowed, io_init)
  /\ fst (run_main cpython accepted env) = 1.
Proof. split; reflexivity. Qed.

(** The same in the branch of pull requests, for a title with a byte of the
    environment that is no UTF-8, which [os.environ] holds as a lone
    surrogate. *)
Example undecodable_title_not_sent :
  let title := "fix " +:+ String "237" (String "178" (String "128" EmptyString)) in
  let env : gmap string string :=
    list_to_map
      [("TELEGRAM_BOT_TOKEN", "123:abc"); ("TELEGRAM_CHAT_ID", "-100");
       ("GITHUB_REPOSITORY", "octo/repo"); ("GITHUB_ACTOR", "bob");
       ("PR_NUMBER", "12"); ("PR_TITLE", title);
       ("PR_URL", "https://github.com/octo/repo/pull/12");
       ("BASE_REF", "main"); ("HEAD_REF", "fix/div");
       ("PR_ACTION", "opened")] in
  main cpython (fun _ => Ok (json_text "{'ok':true}")) env io_init
  = (Uncaught surrogates_not_allowed, io_init).
Proof. reflexivity. Qed.

(** * Further properties *)

(** ** More on escaping *)

Lemma str_length_app (a b : string) :
  String.length (a +:+ b) = (String.length a + String.length b)%nat.
Proof. induction a as [|x a IH]; simpl; [reflexivity | now rewrite IH]. Qed.

Lemma entity_plain (c : ascii) :
  special_char c = false -> entity c = String c EmptyString.
Proof.
  unfold special_char, entity. intros H.
  repeat (apply orb_false_elim in H as [H ?]).
  repeat match goal with
         | E : Ascii.eqb c ?x = false |- _ => rewrite E; clear E
         end.
  reflexivity.
Qed.

Lemma entity_special (c : ascii) :
  special_char c = true -> (4 <= String.length (entity c))%nat.
Proof.
  unfold special_char, entity. intros H.
  repeat match goal with
         | |- context [Ascii.eqb c ?x] =>
             destruct (Ascii.eqb c x); [simpl; lia|]
         end.
  discriminate H.
Qed.

Lemma html_escaped_length (s : string) :
  (String.length s <= String.length (html_escaped s))%nat
  /\ (String.length (html_escaped s) = String.length s -> plain_text s = true).
Proof.
  induction s as [|c s [IHle IHeq]]; [split; [reflexivity | reflexivity]|].
  cbn [html_escaped plain_text]. rewrite str_length_app. simpl String.length.
  destruct (special_char c) eqn:Hc.
  - pose proof (entity_special c Hc). split; [lia|]. intros; lia.
  - rewrite (entity_plain c Hc). simpl. split; [lia|].
    intros H. apply IHeq. lia.
Qed.

Lemma html_escaped_plain (s : string) :
  plain_text s = true -> html_escaped s = s.
Proof.
  induction s as [|c s IH]; [reflexivity|]. cbn [plain_text html_escaped].
  intros H. apply andb_prop in H as [Hc Hs]. apply negb_true_iff in Hc.
  rewrite (entity_plain c Hc), (IH Hs). reflexivity.
Qed.

(** X2. [html.escape] never shortens a text, and it returns the text
    unchanged exactly when the text holds none of the five characters it
    replaces. *)
Theorem escape_fixes_plain_text (s : string) :
  (String.length s <= String.length (escape s))%nat
  /\ (escape s = s <-> plain_text s = true).
Proof.
  rewrite escape_html_escaped. split; [apply html_escaped_length|].
  split.
  - intros H. apply html_escaped_length. now rewrite H.
  - apply html_escaped_plain.
Qed.

Lemma html_escaped_inj (s1 : string) :
  forall s2, html_escaped s1 = html_escaped s2 -> s1 = s2.
Proof.
  induction s1 as [|c1 s1 IH]; intros [|c2 s2] H.
  - reflexivity.
  - exfalso. cbn [html_escaped] in H. unfold entity in H.
    repeat match type of H with
           | context [Ascii.eqb c2 ?x] => destruct (Ascii.eqb c2 x)
           end; discriminate H.
  - exfalso. cbn [html_escaped] in H. unfold entity in H.
    repeat match type of H with
           | context [Ascii.eqb c1 ?x] => destruct (Ascii.eqb c1 x)
           end; discriminate H.
  - cbn [html_escaped] in H. unfold entity in H.
    repeat match type of H with
           | context [Ascii.eqb c1 ?x] =>
               destruct (Ascii.eqb_spec c1 x); [subst c1|]
           end;
    repeat match type of H with
           | context [Ascii.eqb c2 ?x] =>
               destruct (Ascii.eqb_spec c2 x); [subst c2|]
           end;
    simpl in H; try discriminate H;
    inversion H; subst; try congruence; f_equal; apply IH; assumption.
Qed.

(** X1. [html.escape] loses nothing: two texts with the same escaped form
    are the same text. *)
Theorem escape_injective (s1 s2 : string) : escape s1 = escape s2 -> s1 = s2.
Proof. rewrite !escape_html_escaped. apply html_escaped_inj. Qed.

Lemma join_escape (sep : string) (l : list string) :
  escape (join sep l) = join (escape sep) (map escape l).
Proof.
  rewrite !escape_html_escaped.
  induction l as [|x [|y l] IH];
    [reflexivity | symmetry; apply escape_html_escaped |].
  change (join sep (x :: y :: l)) with (x +:+ sep +:+ join sep (y :: l)).
  change (map escape (x :: y :: l)) with (escape x :: map escape (y :: l)).
  change (join (html_escaped sep) (escape x :: map escape (y :: l)))
    with (escape x +:+ html_escaped sep
            +:+ join (html_escaped sep) (map escape (y :: l))).
  rewrite !html_escaped_app, IH, escape_html_escaped. reflexivity.
Qed.

(** X3. Escaping commutes with concatenation and with [join]: escaping the
    pieces and then assembling them is escaping the assembled text. *)
Theorem escape_concat (a b sep : string) (l : list string) :
  escape (a +:+ b) = escape a +:+ escape b
  /\ escape (join sep l) = join (escape sep) (map escape l).
Proof.
  split; [|apply join_escape].
  rewrite !escape_html_escaped. apply html_escaped_app.
Qed.

(** ** Newlines *)

Lemma occurs_app (c : ascii) (a b : string) :
  occurs c (a +:+ b) = occurs c a || occurs c b.
Proof.
  induction a as [|x a IH]; simpl; [reflexivity|].
  now rewrite IH, orb_assoc.
Qed.

Lemma replace_char_removes (old new : ascii) (s : string) :
  old <> new ->
  occurs old (replace_char old (String new EmptyString) s) = false
  /\ String.length (replace_char old (String new EmptyString) s)
     = String.length s
  /\ (occurs old s = false ->
      replace_char old (String new EmptyString) s = s)
  /\ (forall c, c <> old -> c <> new ->
      occurs c (replace_char old (String new EmptyString) s) = occurs c s).
Proof.
  intros Hne. induction s as [|x s (IH1 & IH2 & IH3 & IH4)].
  - repeat split; reflexivity.
  - cbn [replace_char]. destruct (Ascii.eqb_spec x old) as [->|Hx].
    + simpl. rewrite IH1, IH2. repeat split.
      * rewrite (proj2 (Ascii.eqb_neq new old)) by congruence. reflexivity.
      * rewrite Ascii.eqb_refl. discriminate.
      * intros c Hc1 Hc2.
        rewrite (proj2 (Ascii.eqb_neq new c)) by congruence.
        rewrite (proj2 (Ascii.eqb_neq old c)) by congruence.
        now apply IH4.
    + simpl. rewrite IH1, IH2. repeat split.
      * now rewrite (proj2 (Ascii.eqb_neq x old) Hx).
      * rewrite (proj2 (Ascii.eqb_neq x old) Hx). simpl. intros H.
        now rewrite IH3.
      * intros c Hc1 Hc2. now rewrite IH4.
Qed.

Lemma entity_no_newline (c : ascii) :
  occurs "010" (entity c) = Ascii.eqb c "010".
Proof.
  unfold entity.
  repeat match goal with
         | |- context [Ascii.eqb c ?x] =>
             lazymatch x with
             | "010"%char => fail
             | _ => destruct (Ascii.eqb_spec c x) as [->|?]; [reflexivity|]
             end
         end.
  simpl. now rewrite orb_false_r.
Qed.

Lemma escape_newlines (s : string) :
  occurs "010" (escape s) = occurs "010" s.
Proof.
  rewrite escape_html_escaped.
  induction s as [|c s IH]; [reflexivity|].
  cbn [html_escaped occurs]. now rewrite occurs_app, entity_no_newline, IH.
Qed.

Lemma occurs_str_take (c : ascii) (n : nat) (s : string) :
  occurs c s = false -> occurs c (str_take n s) = false.
Proof.
  revert n. induction s as [|x s IH]; intros n; [reflexivity|].
  cbn [occurs str_take]. intros H. apply orb_false_elim in H as [Hx H].
  destruct (is_continuation x); [|destruct n; [reflexivity|]];
    cbn [occurs]; rewrite Hx; now apply IH.
Qed.

(** X5. A commit entry of the expected shape is rendered on one line,
    whatever its message: when the repository name, the commit id and the
    author hold no newline, the line holds none. *)
Theorem commit_on_one_line (rt : runtime) (repo : string) (c : pyval) :
  valid_commit c = true ->
  occurs "010" repo = false ->
  occurs "010" (commit_id c) = false ->
  occurs "010" (commit_author c) = false ->
  exists line,
    commit_line rt repo c = Ok line /\ occurs "010" line = false.
Proof.
  intros Hv Hrepo Hid Hauthor. exists (spec_commit_line repo c).
  split; [now apply commit_line_valid|].
  unfold spec_commit_line, commit_url, dquote.
  rewrite !occurs_app, <- !escape_html_escaped, !escape_newlines.
  rewrite Hrepo, Hid, Hauthor, (occurs_str_take _ 7 _ Hid).
  unfold commit_message.
  rewrite (proj1 (replace_char_removes "010" " " _ ltac:(discriminate))).
  reflexivity.
Qed.

(** ** More on the push formatter *)

(** What the [try] block iterates over has at most 10 items when it is
    sliced from a list; sliced from a string, its items are strings, one for
    each character. *)
Lemma sliced_items (v w : pyval) (items : list pyval) :
  py_slice 10 v = Ok w -> py_iter w = Ok items ->
  (length items <= 10)%nat \/ Forall (fun i => exists x, i = PStr x) items.
Proof.
  destruct v as [| | | |s|l|d]; try discriminate; unfold py_slice;
    intros Hw; injection Hw as <-; unfold py_iter;
    intros Hitems; injection Hitems as <-.
  - right. induction (str_chars (str_take 10 s)) as [|x l IH];
      constructor; [now exists x | exact IH].
  - left. rewrite length_take. lia.
Qed.

(** X6. Whatever the payload, when the push formatter returns its list of
    lines, the list has at least 1 and at most 10 lines. *)
Theorem commits_list_length (rt : runtime) (repo : string)
    (commits_data : option string) (lines : list string) :
  commits_list rt repo commits_data = Ok lines ->
  (1 <= length lines <= 10)%nat.
Proof.
  unfold commits_list. destruct (str_truthy commits_data).
  2:{ intros [= <-]. simpl. lia. }
  destruct (try_commits rt repo _) as [ls|e] eqn:Htry.
  - cbn [mbind res_bind]. destruct ls as [|l ls]; intros [= <-]; [simpl; lia|].
    unfold try_commits in Htry.
    destruct (json_loads rt _) as [v|]; [|discriminate].
    rewrite res_bind_ok in Htry.
    destruct (py_slice 10 v) as [w|] eqn:Hslice; [|discriminate].
    rewrite res_bind_ok in Htry.
    destruct (py_iter w) as [items|] eqn:Hiter; [|discriminate].
    rewrite res_bind_ok in Htry.
    destruct (sliced_items v w items Hslice Hiter) as [Hten | Hstr].
    + apply render_commits_lines in Htry as (new & Hnew & Hlen & _).
      cbn [app] in Hnew. subst new. simpl in Hlen. simpl. lia.
    + destruct items as [|i items]; [discriminate Htry|].
      apply Forall_inv in Hstr as (x & ->). discriminate Htry.
  - destruct (push_handles e); cbn [mbind res_bind]; [|discriminate].
    intros [= <-]. simpl. lia.
Qed.

Lemma py_get_raises (v : pyval) (key : string) (d : pyval) (e : exn) :
  py_get v key d = Raise e -> exn_class_of e = AttributeError.
Proof. destruct v; try discriminate; intros [= <-]; reflexivity. Qed.

Lemma py_slice_raises (n : nat) (v : pyval) (e : exn) :
  py_slice n v = Raise e -> exn_class_of e = TypeError.
Proof. destruct v; try discriminate; intros [= <-]; reflexivity. Qed.

Lemma py_replace_raises (v : pyval) (old : ascii) (new : string) (e : exn) :
  py_replace v old new = Raise e -> exn_class_of e = AttributeError.
Proof. destruct v; try discriminate; intros [= <-]; reflexivity. Qed.

Lemma py_escape_raises (v : pyval) (e : exn) :
  py_escape v = Raise e -> exn_class_of e = AttributeError.
Proof. destruct v; try discriminate; intros [= <-]; reflexivity. Qed.

Lemma py_iter_raises (v : pyval) (e : exn) :
  py_iter v = Raise e -> exn_class_of e = TypeError.
Proof. destruct v; try discriminate; intros [= <-]; reflexivity. Qed.

(** The loop body raises only [TypeError] (a slice) or [AttributeError] (a
    method an object does not have). *)
Lemma commit_line_raises (rt : runtime) (repo : string) (c : pyval) (e : exn) :
  commit_line rt repo c = Raise e ->
  exn_class_of e = TypeError \/ exn_class_of e = AttributeError.
Proof.
  unfold commit_line. intros H.
  repeat match type of H with
         | (?m ≫= _) = Raise _ =>
             let E := fresh "E" in
             destruct m eqn:E;
             [ rewrite res_bind_ok in H
             | rewrite res_bind_raise in H; injection H as -> ]
         end;
  try discriminate H;
  repeat match goal with
         | E : (if ?b then _ else _) = Raise _ |- _ => destruct b
         | E : (?m ≫= _) = Raise _ |- _ =>
             let E' := fresh "E" in
             destruct m eqn:E';
             [ rewrite res_bind_ok in E
             | rewrite res_bind_raise in E; injection E as -> ]
         end;
  try discriminate;
  eauto using py_get_raises, py_slice_raises, py_replace_raises,
    py_escape_raises.
Qed.

Lemma render_commits_raises (rt : runtime) (repo : string) (cs : list pyval) :
  forall acc e,
    render_commits rt repo cs acc = Raise e ->
    exn_class_of e = TypeError \/ exn_class_of e = AttributeError.
Proof.
  induction cs as [|c cs IH]; intros acc e H; simpl in H; [discriminate|].
  destruct (commit_line rt repo c) as [line|e'] eqn:E.
  - rewrite res_bind_ok in H. eauto.
  - rewrite res_bind_raise in H. injection H as ->.
    eauto using commit_line_raises.
Qed.

(** X7. An exception that leaves the push formatter is never of a class
    its [except] clause names; it is either one [json.loads] raised, or an
    [AttributeError]. *)
Theorem push_formatter_escapes (rt : runtime) (repo actor branch : string)
    (commits_data : option string) (e : exn) :
  format_push_message rt repo actor branch commits_data = Raise e ->
  push_handles e = false
  /\ ((exists data, commits_data = Some data /\ json_loads rt data = Raise e)
      \/ exn_class_of e = AttributeError).
Proof.
  unfold format_push_message.
  destruct (commits_list rt repo commits_data) as [lines|e'] eqn:Hlist;
    [discriminate|].
  rewrite res_bind_raise. intros [= ->].
  unfold commits_list in Hlist.
  destruct (str_truthy commits_data) eqn:Htruthy; [|discriminate].
  destruct commits_data as [data|]; [|discriminate].
  cbn [default from_option id] in Hlist.
  destruct (try_commits rt repo data) as [ls|e'] eqn:Htry.
  { destruct ls; discriminate. }
  destruct (push_handles e') eqn:Hh; [discriminate|].
  rewrite res_bind_raise in Hlist. injection Hlist as ->.
  split; [exact Hh|].
  unfold try_commits in Htry.
  destruct (json_loads rt data) as [v|e'] eqn:Hjson.
  2:{ rewrite res_bind_raise in Htry. injection Htry as ->.
      left. exists data. split; [reflexivity | exact Hjson]. }
  right. rewrite res_bind_ok in Htry.
  assert (exn_class_of e = TypeError \/ exn_class_of e = AttributeError)
    as [Hc|Hc]; [|unfold push_handles in Hh; rewrite Hc in Hh; discriminate
                 |exact Hc].
  destruct (py_slice 10 v) as [w|e'] eqn:Hslice.
  2:{ rewrite res_bind_raise in Htry. injection Htry as ->.
      left. eauto using py_slice_raises. }
  rewrite res_bind_ok in Htry.
  destruct (py_iter w) as [items|e'] eqn:Hiter.
  2:{ rewrite res_bind_raise in Htry. injection Htry as ->.
      left. eauto using py_iter_raises. }
  rewrite res_bind_ok in Htry. eauto using render_commits_raises.
Qed.

Lemma render_commits_app (rt : runtime) (repo : string) (a b : list pyval) :
  forall acc,
    render_commits rt repo (a ++ b) acc
    = (lines ← render_commits rt repo a acc; render_commits rt repo b lines).
Proof.
  induction a as [|c a IH]; intros acc; [reflexivity|]. simpl.
  destruct (commit_line rt repo c) as [line|e]; [|reflexivity].
  rewrite !res_bind_ok. apply IH.
Qed.

Lemma take_app_cons {A : Type} (n : nat) (a : list A) (x : A) (rest : list A) :
  (length a < n)%nat -> exists tl, take n (a ++ x :: rest) = a ++ x :: tl.
Proof.
  revert n. induction a as [|y a IH]; intros [|n] H; simpl in *; try lia.
  - eexists. reflexivity.
  - destruct (IH n) as [tl ->]; [lia|]. eexists. reflexivity.
Qed.

Lemma try_commits_list (rt : runtime) (repo data : string)
    (commits : list pyval) :
  json_loads rt data = Ok (PList commits) ->
  try_commits rt repo data = render_commits rt repo (take 10 commits) [].
Proof. intros H. unfold try_commits. rewrite H. reflexivity. Qed.

(** X8. The entries after the tenth are never looked at: two payloads that
    decode to lists with the same first 10 entries give the same result,
    message or exception. *)
Theorem entries_after_tenth_ignored (rt : runtime)
    (repo actor branch data1 data2 : string) (commits1 commits2 : list pyval) :
  data1 <> EmptyString -> data2 <> EmptyString ->
  json_loads rt data1 = Ok (PList commits1) ->
  json_loads rt data2 = Ok (PList commits2) ->
  take 10 commits1 = take 10 commits2 ->
  format_push_message rt repo actor branch (Some data1)
  = format_push_message rt repo actor branch (Some data2).
Proof.
  intros H1 H2 Hj1 Hj2 Htake. unfold format_push_message, commits_list.
  rewrite (str_truthy_some data1 H1), (str_truthy_some data2 H2).
  cbn [default from_option id].
  rewrite (try_commits_list rt repo data1 commits1 Hj1).
  rewrite (try_commits_list rt repo data2 commits2 Hj2).
  rewrite Htake. reflexivity.
Qed.

(** X9. A handled error discards the lines already made: when one of the
    first 10 entries is an object whose [id] cannot be sliced (a number, a
    boolean, [null], an object) and the entries before it are of the
    expected shape, the lines are the single sentinel
    "— error parsing commits —". *)
Theorem handled_error_discards_lines (rt : runtime) (repo data : string)
    (good rest : list pyval) (d : list (string * pyval)) (v : pyval) :
  data <> EmptyString ->
  json_loads rt data = Ok (PList (good ++ PDict d :: rest)) ->
  (length good < 10)%nat ->
  forallb valid_commit good = true ->
  dict_get "id" d = Some v ->
  match v with PStr _ | PList _ => False | _ => True end ->
  commits_list rt repo (Some data) = Ok [error_parsing_commits].
Proof.
  intros Hdata Hjson Hlen Hvalid Hid Hv. unfold commits_list.
  rewrite (str_truthy_some data Hdata). cbn [default from_option id].
  rewrite (try_commits_list rt repo data _ Hjson).
  destruct (take_app_cons 10 good (PDict d) rest Hlen) as [tl ->].
  rewrite render_commits_app, (render_commits_valid rt repo good Hvalid).
  rewrite res_bind_ok. cbn [render_commits].
  assert (exists e, commit_line rt repo (PDict d) = Raise e
                    /\ push_handles e = true) as (e & -> & He).
  { unfold commit_line. cbn [py_get]. rewrite Hid. cbn [from_option id].
    rewrite res_bind_ok.
    destruct v; try contradiction; eexists; split; reflexivity. }
  rewrite res_bind_raise, He. reflexivity.
Qed.

(** ** More on the process *)

(** X10. [get_env_var] either returns what [os.getenv] gives, leaving the
    streams untouched, and then a required value is a non-empty string; or,
    for a required variable that is unset or empty, it exits with code 1
    after one diagnostic naming the variable. It never raises. *)
Theorem get_env_var_result (env : gmap string string) (name : string)
    (required : bool) (io io' : io_state) (st : status (option string)) :
  get_env_var env name required io = (st, io') ->
  match st with
  | Done v =>
      io' = io /\ v = env !! name
      /\ (required = true -> exists c s, v = Some (String c s))
  | Exited code =>
      required = true /\ code = 1 /\ str_truthy (env !! name) = false
      /\ io' = log_err (missing_diagnostic name) io
  | Uncaught _ => False
  end.
Proof.
  unfold get_env_var. destruct required; cbn [andb].
  - destruct (env !! name) as [[|c s]|] eqn:E; cbn; intros [= <- <-];
      repeat split; try reflexivity. intros _. eauto.
  - cbn. intros [= <- <-]. repeat split. discriminate.
Qed.

(** A formatter branch reports the first of its required variables that is
    not present. *)
Lemma event_message_first_missing (rt : runtime) (env : gmap string string)
    (repo actor : string) (k : event_kind) (io : io_state) (name : string) :
  find (fun name => negb (present env name)) (kind_required k) = Some name ->
  event_message rt env repo actor k io
  = (Exited 1, log_err (missing_diagnostic name) io).
Proof.
  destruct k; cbn [event_message kind_required find];
    unfold pull_request_event, issue_event, push_event, workflow_run_event;
    repeat (rewrite bind_required;
            match goal with
            | |- context [present env ?n] =>
                destruct (present env n); cbn [negb];
                [| intros [= <-]; reflexivity ]
            end);
    discriminate.
Qed.

(** X11. When a required variable is not present, the run ends with exit
    code 1 and the one diagnostic it prints names the first such variable
    in the order [main] reads them: the four common ones, then those of the
    branch of the event kind. *)
Theorem first_missing_reported (rt : runtime)
    (urlopen : request -> res string) (env : gmap string string)
    (name : string) :
  first_missing env = Some name ->
  main rt urlopen env io_init
  = (Exited 1, log_err (missing_diagnostic name) io_init).
Proof.
  unfold first_missing, read_order. rewrite main_cases.
  cbn [common_required app find].
  repeat match goal with
         | |- context [negb (present env ?n)] =>
             destruct (present env n); cbn [negb];
             [| intros [= <-]; reflexivity ]
         end.
  rewrite select_message_classify.
  destruct (classify env) as [k|]; [|discriminate].
  intros H. rewrite (event_message_first_missing _ _ _ _ _ _ _ H). reflexivity.
Qed.



(** ** The request *)

(** X13. The request goes by POST to the [sendMessage] URL of the bot
    token; its body has the chat identifier, the message and the HTML parse
    mode whatever the thread identifier is, its keys are distinct, and the
    only other key it can have is [message_thread_id], for a non-empty
    thread identifier. *)
Theorem request_fields (rt : runtime)
    (bot_token chat_id message : string) (thread_id : option string) :
  let req := build_request rt bot_token chat_id message thread_id in
  req_url req
  = "https://api.telegram.org/bot" +:+ bot_token +:+ "/sendMessage"
  /\ req_method req = "POST"
  /\ dict_get "chat_id" (req_data req) = Some (PStr chat_id)
  /\ dict_get "text" (req_data req) = Some (PStr message)
  /\ dict_get "parse_mode" (req_data req) = Some (PStr "HTML")
  /\ NoDup (map fst (req_data req))
  /\ (forall key,
        is_Some (dict_get key (req_data req)) ->
        key = "chat_id" \/ key = "text" \/ key = "parse_mode"
        \/ (key = "message_thread_id" /\ str_truthy thread_id = true)).
Proof.
  intros req.
  assert (Hdata :
    req_data req
    = [("chat_id", PStr chat_id); ("text", PStr message);
       ("parse_mode", PStr "HTML")]
      ++ (if str_truthy thread_id then
            [("message_thread_id",
              match py_int rt (default EmptyString thread_id) with
              | Some n => PInt n
              | None => PStr (default EmptyString thread_id)
              end)]
          else [])).
  { subst req. unfold build_request.
    destruct (str_truthy thread_id); [destruct (py_int rt _)|]; reflexivity. }
  rewrite Hdata. repeat (split; [reflexivity|]). split.
  - destruct (str_truthy thread_id);
      apply (bool_decide_unpack _); vm_compute; reflexivity.
  - intros key. destruct (str_truthy thread_id); cbn [app dict_get];
      repeat match goal with
             | |- context [String.eqb ?k key] =>
                 destruct (String.eqb_spec k key) as [<-|_];
                 [ intros _; repeat (first [left; reflexivity | right]);
                   split; reflexivity
                 | ]
             end;
      intros [? H]; discriminate H.
Qed.

(** ** What a run depends on *)

(** Unfolds the reads of the branches of [main] down to lookups. *)
Ltac unfold_reads :=
  unfold pull_request_event, issue_event, push_event, workflow_run_event;
  repeat (first [rewrite bind_required | rewrite bind_optional]; cbn beta);
  unfold classify, hint, present.

(** X15. A run depends on the environment only through the 24 variables
    the script names: two environments that agree on them give the same
    run. *)
Theorem main_reads_only (rt : runtime) (urlopen : request -> res string)
    (env1 env2 : gmap string string) (io : io_state) :
  (forall name, In name variables_read -> env1 !! name = env2 !! name) ->
  main rt urlopen env1 io = main rt urlopen env2 io.
Proof.
  intros Hagree.
  assert (Hclass : classify env1 = classify env2).
  { unfold classify, hint, present.
    repeat match goal with
           | |- context [env1 !! ?n] =>
               rewrite (Hagree n) by (simpl; tauto)
           end.
    reflexivity. }
  rewrite !main_cases, !select_message_classify, Hclass.
  destruct (classify env2) as [[| | |]|]; cbn [event_message];
    unfold_reads;
    repeat match goal with
           | |- context [env1 !! ?n] =>
               rewrite (Hagree n) by (simpl; tauto)
           end;
    reflexivity.
Qed.

(** Turns the lookups in an updated environment into lookups in the
    environment itself. *)
Ltac lookups :=
  rewrite ?lookup_insert_eq, ?lookup_delete_eq;
  repeat (rewrite lookup_insert_ne by discriminate);
  repeat (rewrite lookup_delete_ne by discriminate).

(** X16. An event-type hint that is none of "pull_request", "issues",
    "push" and "workflow_run" has no effect: the run is the run without
    the hint. *)
Theorem unknown_hint_ignored (rt : runtime) (urlopen : request -> res string)
    (env : gmap string string) (v : string) (io : io_state) :
  ~ In v known_hints ->
  main rt urlopen (<["EVENT_TYPE" := v]> env) io
  = main rt urlopen (delete "EVENT_TYPE" env) io.
Proof.
  intros Hv.
  assert (Hhint : forall lit, In lit known_hints -> String.eqb v lit = false).
  { intros lit Hlit. apply String.eqb_neq. congruence. }
  assert (Hclass : classify (<["EVENT_TYPE" := v]> env)
                   = classify (delete "EVENT_TYPE" env)).
  { unfold classify, hint, present. lookups. cbn [opt_eqb].
    rewrite !Hhint by (simpl; tauto). reflexivity. }
  rewrite !main_cases, !select_message_classify, Hclass. clear Hclass.
  destruct (classify _) as [[| | |]|]; cbn [event_message];
    unfold_reads; lookups; reflexivity.
Qed.

Lemma get_pr_status_open (action : string) (m1 m2 : bool) :
  action <> "closed" -> get_pr_status action m1 = get_pr_status action m2.
Proof.
  intros H. unfold get_pr_status.
  now rewrite (proj2 (String.eqb_neq action "closed") H).
Qed.

(** X17. The merged flag counts only as the exact string "true" and only
    for the action "closed": with any other value, or any other action, the
    run is the run without [PR_MERGED]. *)
Theorem merged_flag_scope (rt : runtime) (urlopen : request -> res string)
    (env : gmap string string) (v : string) (io : io_state) :
  v <> "true" \/ env !! "PR_ACTION" <> Some "closed" ->
  main rt urlopen (<["PR_MERGED" := v]> env) io
  = main rt urlopen (delete "PR_MERGED" env) io.
Proof.
  intros Hv.
  assert (Hclass : classify (<["PR_MERGED" := v]> env)
                   = classify (delete "PR_MERGED" env)).
  { unfold classify, hint, present. lookups. reflexivity. }
  rewrite !main_cases, !select_message_classify, Hclass. clear Hclass.
  destruct (classify _) as [[| | |]|]; cbn [event_message];
    unfold_reads; lookups; try reflexivity.
  cbn [opt_eqb].
  destruct Hv as [Hv|Hv].
  - now rewrite (proj2 (String.eqb_neq v "true") Hv).
  - rewrite (get_pr_status_open _ (String.eqb v "true") false);
      [reflexivity|].
    destruct (env !! "PR_ACTION"); cbn; congruence.
Qed.

(** X18. The defaults of the workflow branch: a run with
    [WORKFLOW_EVENT] or [WORKFLOW_BRANCH] set to "unknown", or
    [WORKFLOW_URL] set to "#", is the run without that variable. *)
Theorem workflow_defaults (rt : runtime) (urlopen : request -> res string)
    (env : gmap string string) (io : io_state) :
  main rt urlopen (<["WORKFLOW_EVENT" := "unknown"]> env) io
  = main rt urlopen (delete "WORKFLOW_EVENT" env) io
  /\ main rt urlopen (<["WORKFLOW_BRANCH" := "unknown"]> env) io
     = main rt urlopen (delete "WORKFLOW_BRANCH" env) io
  /\ main rt urlopen (<["WORKFLOW_URL" := "#"]> env) io
     = main rt urlopen (delete "WORKFLOW_URL" env) io.
Proof.
  repeat split.
  all: match goal with
       | |- main _ _ ?e1 _ = main _ _ ?e2 _ =>
           assert (Hclass : classify e1 = classify e2)
             by (unfold classify, hint, present; lookups; reflexivity);
           rewrite !main_cases, !select_message_classify, Hclass;
           clear Hclass
       end;
       destruct (classify _) as [[| | |]|]; cbn [event_message];
       unfold_reads; lookups; reflexivity.
Qed.

(** X14. With the four common variables set, a run whose formatter branch
    returns a message builds its request from the bot token, the chat
    identifier, that message and the thread identifier. When the form of
    this request can be encoded, it is the one request of the run and the
    exit code is 0 or 1 by the response to it; when it cannot, the run ends
    on the exception of the encoder, with no request and no output. *)
Theorem main_sends_formatted_message (rt : runtime)
    (urlopen : request -> res string) (env : gmap string string)
    (bot_token chat_id repo actor message : string) (k : event_kind) :
  env !! "TELEGRAM_BOT_TOKEN" = Some bot_token -> bot_token <> EmptyString ->
  env !! "TELEGRAM_CHAT_ID" = Some chat_id -> chat_id <> EmptyString ->
  env !! "GITHUB_REPOSITORY" = Some repo -> repo <> EmptyString ->
  env !! "GITHUB_ACTOR" = Some actor -> actor <> EmptyString ->
  classify env = Some k ->
  event_message rt env repo actor k io_init = (Done message, io_init) ->
  let req :=
    build_request rt bot_token chat_id message
      (env !! "TELEGRAM_THREAD_ID") in
  match urlencode rt (req_data req) with
  | Ok _ =>
      requests (snd (run_main rt urlopen env)) = [req]
      /\ fst (run_main rt urlopen env)
         = if response_ok rt (urlopen req) then 0 else 1
  | Raise e => main rt urlopen env io_init = (Uncaught e, io_init)
  end.
Proof.
  intros Ht Ht' Hc Hc' Hr Hr' Ha Ha' Hk Hmsg req.
  unfold run_main. rewrite main_cases. unfold present.
  rewrite Ht, Hc, Hr, Ha.
  rewrite !str_truthy_some by assumption. cbn [negb default from_option id].
  rewrite select_message_classify, Hk, Hmsg.
  pose proof (send_outcome rt urlopen bot_token chat_id message
                (env !! "TELEGRAM_THREAD_ID") io_init) as Hsend.
  cbv zeta in Hsend. fold req in Hsend.
  destruct (urlencode rt (req_data req)) as [data_encoded|e].
  - destruct Hsend as (io' & -> & Hreq).
    destruct (response_ok rt (urlopen req)); cbn [fst snd exit_code];
      (split; [exact Hreq | reflexivity]).
  - rewrite Hsend. reflexivity.
Qed.

(** X4. The replacement applied to a commit message leaves no newline,
    keeps the length of the message, and changes nothing in a message
    without newline. *)
Theorem message_newlines_replaced (m : string) :
  exists m',
    py_replace (PStr m) "010" " " = Ok m'
    /\ occurs "010" m' = false
    /\ String.length m' = String.length m
    /\ (occurs "010" m = false -> m' = m).
Proof.
  eexists. split; [reflexivity|].
  destruct (replace_char_removes "010" " " m ltac:(discriminate))
    as (H1 & H2 & H3 & _).
  auto.
Qed.

(** ** Instances of the further properties *)

Lemma escape_injective_witness : "a<b" = "a<b".
Proof. apply escape_injective. reflexivity. Defined.

Lemma escape_fixes_plain_text_witness :
  escape "fix/div-12 ok" = "fix/div-12 ok" /\ plain_text "a & b" = false.
Proof.
  split.
  - apply (proj2 (escape_fixes_plain_text "fix/div-12 ok")). reflexivity.
  - destruct (plain_text "a & b") eqn:E; [|reflexivity].
    apply (proj2 (escape_fixes_plain_text "a & b")) in E. discriminate E.
Defined.

Lemma commit_on_one_line_witness :
  let c := PDict [("id", PStr "abcdef1234567");
                  ("message", PStr ("first" +:+ newline +:+ "second"));
                  ("author", PDict [("name", PStr "alice")])] in
  exists line,
    commit_line cpython "octo/repo" c = Ok line /\ occurs "010" line = false.
Proof.
  intros c. apply (commit_on_one_line cpython "octo/repo" c); reflexivity.
Defined.

Lemma commits_list_length_witness :
  (1 <= length [error_parsing_commits] <= 10)%nat.
Proof.
  apply (commits_list_length cpython "octo/repo" (Some "not json")).
  reflexivity.
Defined.

Lemma push_formatter_escapes_witness :
  let e := Exn AttributeError "'int' object has no attribute 'get'" in
  push_handles e = false
  /\ ((exists data, Some "[1]" = Some data /\ json_loads cpython data = Raise e)
      \/ exn_class_of e = AttributeError).
Proof.
  intros e.
  apply (push_formatter_escapes cpython "octo/repo" "bob" "main" (Some "[1]")).
  reflexivity.
Defined.

Lemma entries_after_tenth_ignored_witness :
  format_push_message cpython "octo/repo" "bob" "main"
    (Some (json_text ("[" +:+ ten_entries +:+ "]")))
  = format_push_message cpython "octo/repo" "bob" "main"
      (Some (json_text ("[" +:+ ten_entries +:+ ",1,{'author':2}]"))).
Proof.
  let c1 := eval vm_compute in
    (json_loads cpython (json_text ("[" +:+ ten_entries +:+ "]"))) in
  let c2 := eval vm_compute in
    (json_loads cpython (json_text ("[" +:+ ten_entries +:+ ",1,{'author':2}]"))) in
  match c1 with
  | Ok (PList ?l1) =>
      match c2 with
      | Ok (PList ?l2) =>
          apply (entries_after_tenth_ignored cpython "octo/repo" "bob" "main"
                   _ _ l1 l2);
          [ vm_compute; discriminate | vm_compute; discriminate
          | vm_compute; reflexivity | vm_compute; reflexivity
          | reflexivity ]
      end
  end.
Defined.

Lemma handled_error_discards_lines_witness :
  commits_list cpython "octo/repo"
    (Some (json_text "[{'id':'abcdef1234567'},{'id':5}]"))
  = Ok [error_parsing_commits].
Proof.
  apply (handled_error_discards_lines cpython "octo/repo" _
           [PDict [("id", PStr "abcdef1234567")]] []
           [("id", PInt 5)] (PInt 5));
    [ vm_compute; discriminate | vm_compute; reflexivity | simpl; lia
    | reflexivity | reflexivity | exact I ].
Defined.

Lemma get_env_var_result_witness :
  let env : gmap string string := {["GITHUB_ACTOR" := "bob"]} in
  exists c s, Some "bob" = Some (String c s).
Proof.
  intros env.
  apply (get_env_var_result env "GITHUB_ACTOR" true io_init io_init
           (Done (Some "bob")) eq_refl).
  reflexivity.
Defined.

Lemma first_missing_reported_witness :
  let env : gmap string string :=
    list_to_map
      [("TELEGRAM_BOT_TOKEN", "123:abc"); ("TELEGRAM_CHAT_ID", "-100");
       ("GITHUB_REPOSITORY", "octo/repo"); ("GITHUB_ACTOR", "bob");
       ("ISSUE_NUMBER", "3"); ("ISSUE_ACTION", "opened")] in
  first_missing env = Some "ISSUE_TITLE"
  /\ main cpython (fun _ => Ok EmptyString) env io_init
     = (Exited 1, log_err (missing_diagnostic "ISSUE_TITLE") io_init).
Proof.
  intros env. split; [reflexivity|].
  apply (first_missing_reported cpython (fun _ => Ok EmptyString) env).
  reflexivity.
Defined.

Lemma request_fields_witness :
  dict_get "reply_markup"
    (req_data (build_request cpython "123:abc" "-100" "hi" None))
  = None.
Proof.
  destruct (dict_get "reply_markup" _) as [v|] eqn:E; [|reflexivity].
  destruct (proj2 (proj2 (proj2 (proj2 (proj2 (proj2
              (request_fields cpython "123:abc" "-100" "hi" None))))))
              "reply_markup" (ex_intro _ v E))
    as [H|[H|[H|[H _]]]]; discriminate H.
Defined.

Lemma message_newlines_replaced_witness :
  exists m',
    py_replace (PStr ("fix" +:+ newline +:+ "bug")) "010" " " = Ok m'
    /\ occurs "010" m' = false
    /\ String.length m' = 7%nat.
Proof.
  destruct (message_newlines_replaced ("fix" +:+ newline +:+ "bug"))
    as (m' & H1 & H2 & H3 & _).
  exists m'. repeat split; assumption.
Defined.

Lemma main_sends_formatted_message_witness :
  let env : gmap string string :=
    list_to_map
      [("TELEGRAM_BOT_TOKEN", "123:abc"); ("TELEGRAM_CHAT_ID", "-100");
       ("GITHUB_REPOSITORY", "octo/repo"); ("GITHUB_ACTOR", "bob");
       ("ISSUE_NUMBER", "3"); ("ISSUE_TITLE", "crash");
       ("ISSUE_URL", "https://github.com/octo/repo/issues/3");
       ("ISSUE_ACTION", "opened")] in
  let accepted := fun _ : request => Ok (json_text "{'ok':true}") in
  requests (snd (run_main cpython accepted env))
  = [build_request cpython "123:abc" "-100"
       (format_issue_message "octo/repo" "bob" "3" "crash"
          "https://github.com/octo/repo/issues/3" "opened") None]
  /\ fst (run_main cpython accepted env) = 0.
Proof.
  intros env accepted.
  exact (main_sends_formatted_message cpython accepted env
           "123:abc" "-100" "octo/repo" "bob"
           (format_issue_message "octo/repo" "bob" "3" "crash"
              "https://github.com/octo/repo/issues/3" "opened")
           Issue
           eq_refl ltac:(discriminate) eq_refl ltac:(discriminate)
           eq_refl ltac:(discriminate) eq_refl ltac:(discriminate)
           eq_refl eq_refl).
Defined.

Lemma main_reads_only_witness :
  let env : gmap string string :=
    list_to_map
      [("TELEGRAM_BOT_TOKEN", "123:abc"); ("TELEGRAM_CHAT_ID", "-100");
       ("GITHUB_REPOSITORY", "octo/repo"); ("GITHUB_ACTOR", "bob");
       ("PUSH_BRANCH", "main")] in
  main cpython (fun _ => Ok EmptyString) (<["HOME" := "/root"]> env) io_init
  = main cpython (fun _ => Ok EmptyString) env io_init.
Proof.
  intros env. apply main_reads_only. intros name Hname.
  apply lookup_insert_ne. intros <-.
  simpl in Hname. repeat (destruct Hname as [Hname|Hname];
                          [discriminate Hname|]).
  exact Hname.
Defined.

Lemma unknown_hint_ignored_witness :
  let env : gmap string string :=
    list_to_map
      [("TELEGRAM_BOT_TOKEN", "123:abc"); ("TELEGRAM_CHAT_ID", "-100");
       ("GITHUB_REPOSITORY", "octo/repo"); ("GITHUB_ACTOR", "bob");
       ("PUSH_BRANCH", "main")] in
  main cpython (fun _ => Ok EmptyString) (<["EVENT_TYPE" := "release"]> env)
    io_init
  = main cpython (fun _ => Ok EmptyString) (delete "EVENT_TYPE" env) io_init.
Proof.
  intros env. apply unknown_hint_ignored. simpl.
  intros [H|[H|[H|[H|[]]]]]; discriminate H.
Defined.

Lemma merged_flag_scope_witness :
  let env : gmap string string :=
    list_to_map
      [("TELEGRAM_BOT_TOKEN", "123:abc"); ("TELEGRAM_CHAT_ID", "-100");
       ("GITHUB_REPOSITORY", "octo/repo"); ("GITHUB_ACTOR", "bob");
       ("PR_NUMBER", "12"); ("PR_TITLE", "Fix"); ("PR_URL", "https://x/12");
       ("BASE_REF", "main"); ("HEAD_REF", "fix"); ("PR_ACTION", "closed")] in
  main cpython (fun _ => Ok EmptyString) (<["PR_MERGED" := "True"]> env)
    io_init
  = main cpython (fun _ => Ok EmptyString) (delete "PR_MERGED" env) io_init.
Proof.
  intros env. apply merged_flag_scope. left. discriminate.
Defined.
